(** * SceneManager: texture and material registries, transform composition
      and the render script of [Project/Source/SceneManager.cpp].

    The C++ [float] is read as a real number: arithmetic is exact and
    rounding is left out.  [int] values are integers in [Z]; the counters
    and indices of the file start at 0 or -1 and only count registry
    entries, far from wrap-around. *)

From Stdlib Require Import Reals Lra ZArith Lia List String Bool.
Import ListNotations.

Local Open Scope string_scope.
Local Open Scope list_scope.
Local Open Scope Z_scope.

(** ** GLM: the vectors and matrices the scene manager uses

    GLM is a header library outside the repository.  The definitions below
    follow its generic (non-SIMD) code: [glm/detail/type_mat4x4.inl],
    [glm/ext/matrix_transform.inl], [glm/gtx/transform.inl],
    [glm/detail/func_geometric.inl] and [glm/trigonometric.inl]. *)
Module glm.

Local Open Scope R_scope.

Record vec2 := mkVec2 { v2x : R; v2y : R }.
Record vec3 := mkVec3 { v3x : R; v3y : R; v3z : R }.
Record vec4 := mkVec4 { v4x : R; v4y : R; v4z : R; v4w : R }.

(** A [mat4] is four columns; [m[i]] of the C++ is column [i]. *)
Record mat4 := mkMat4 { col0 : vec4; col1 : vec4; col2 : vec4; col3 : vec4 }.

(** [v * s] and [v + w] on [vec4]. *)
Definition vec4_scale (v : vec4) (s : R) : vec4 :=
  mkVec4 (v4x v * s) (v4y v * s) (v4z v * s) (v4w v * s).

Definition vec4_add (v w : vec4) : vec4 :=
  mkVec4 (v4x v + v4x w) (v4y v + v4y w) (v4z v + v4z w) (v4w v + v4w w).

(** [v * s] and [s * v] on [vec3]. *)
Definition vec3_scale (v : vec3) (s : R) : vec3 :=
  mkVec3 (v3x v * s) (v3y v * s) (v3z v * s).

Definition vec3_lscale (s : R) (v : vec3) : vec3 :=
  mkVec3 (s * v3x v) (s * v3y v) (s * v3z v).

(** [mat4(1.0f)]. *)
Definition mat4_identity : mat4 :=
  mkMat4 (mkVec4 1 0 0 0) (mkVec4 0 1 0 0) (mkVec4 0 0 1 0) (mkVec4 0 0 0 1).

(** [glm::radians]: degrees times pi/180. *)
Definition radians (degrees : R) : R := degrees * (PI / 180).

(** [glm::dot], [glm::inversesqrt] and [glm::normalize] on [vec3]. *)
Definition dot (a b : vec3) : R :=
  v3x a * v3x b + v3y a * v3y b + v3z a * v3z b.

Definition inversesqrt (x : R) : R := 1 / sqrt x.

Definition normalize (v : vec3) : vec3 := vec3_scale v (inversesqrt (dot v v)).

(** [operator*(mat4, mat4)]: column [j] of the product is the combination of
    the columns of [m1] with the entries of column [j] of [m2]. *)
Definition mat4_mul_col (m1 : mat4) (b : vec4) : vec4 :=
  vec4_add
    (vec4_add
       (vec4_add (vec4_scale (col0 m1) (v4x b)) (vec4_scale (col1 m1) (v4y b)))
       (vec4_scale (col2 m1) (v4z b)))
    (vec4_scale (col3 m1) (v4w b)).

Definition mat4_mul (m1 m2 : mat4) : mat4 :=
  mkMat4 (mat4_mul_col m1 (col0 m2)) (mat4_mul_col m1 (col1 m2))
         (mat4_mul_col m1 (col2 m2)) (mat4_mul_col m1 (col3 m2)).

(** [operator*(mat4, vec4)]: the matrix applied to a column vector. *)
Definition mat4_mul_vec4 (m : mat4) (v : vec4) : vec4 := mat4_mul_col m v.

(** [glm::scale(m, v)] and the one-argument [glm::scale(v)]. *)
Definition scale_mat (m : mat4) (v : vec3) : mat4 :=
  mkMat4 (vec4_scale (col0 m) (v3x v)) (vec4_scale (col1 m) (v3y v))
         (vec4_scale (col2 m) (v3z v)) (col3 m).

Definition scale (v : vec3) : mat4 := scale_mat mat4_identity v.

(** [glm::translate(m, v)] and the one-argument [glm::translate(v)]. *)
Definition translate_mat (m : mat4) (v : vec3) : mat4 :=
  mkMat4 (col0 m) (col1 m) (col2 m)
         (vec4_add
            (vec4_add
               (vec4_add (vec4_scale (col0 m) (v3x v)) (vec4_scale (col1 m) (v3y v)))
               (vec4_scale (col2 m) (v3z v)))
            (col3 m)).

Definition translate (v : vec3) : mat4 := translate_mat mat4_identity v.

(** [glm::rotate(m, angle, v)]: the axis is normalised, the 3x3 rotation is
    built from [c], [s] and [(1 - c) * axis], and the first three columns of
    [m] are recombined with it. *)
Definition rotate_mat (m : mat4) (angle : R) (v : vec3) : mat4 :=
  let a := angle in
  let c := cos a in
  let s := sin a in
  let axis := normalize v in
  let temp := vec3_lscale (1 - c) axis in
  let r00 := c + v3x temp * v3x axis in
  let r01 := v3x temp * v3y axis + s * v3z axis in
  let r02 := v3x temp * v3z axis - s * v3y axis in
  let r10 := v3y temp * v3x axis - s * v3z axis in
  let r11 := c + v3y temp * v3y axis in
  let r12 := v3y temp * v3z axis + s * v3x axis in
  let r20 := v3z temp * v3x axis + s * v3y axis in
  let r21 := v3z temp * v3y axis - s * v3x axis in
  let r22 := c + v3z temp * v3z axis in
  mkMat4
    (vec4_add (vec4_add (vec4_scale (col0 m) r00) (vec4_scale (col1 m) r01))
              (vec4_scale (col2 m) r02))
    (vec4_add (vec4_add (vec4_scale (col0 m) r10) (vec4_scale (col1 m) r11))
              (vec4_scale (col2 m) r12))
    (vec4_add (vec4_add (vec4_scale (col0 m) r20) (vec4_scale (col1 m) r21))
              (vec4_scale (col2 m) r22))
    (col3 m).

Definition rotate (angle : R) (v : vec3) : mat4 := rotate_mat mat4_identity angle v.

End glm.

(** ** Results of running C++ code

    A method either returns, or runs into undefined behaviour that the model
    makes explicit: a call through a null pointer, or an array access outside
    the array.  Loops are run with a bound on their iterations; [OutOfFuel]
    is the result of a loop that did not stop within its bound. *)
Inductive Fault := NullPointerDereference | IndexOutOfBounds.

Inductive Run (A : Type) :=
| Done (a : A)
| Crash (f : Fault)
| OutOfFuel.
Arguments Done {A} a.
Arguments Crash {A} f.
Arguments OutOfFuel {A}.

Definition Run_bind {A B : Type} (m : Run A) (k : A -> Run B) : Run B :=
  match m with
  | Done a => k a
  | Crash f => Crash f
  | OutOfFuel => OutOfFuel
  end.

Notation "'let*' x ':=' m 'in' k" := (Run_bind m (fun x => k))
  (at level 10, x pattern, m at level 200, k at level 200).

(** A C array of fixed length, read and written at an [int] index. *)
Definition array_get {A : Type} (a : list A) (i : Z) : Run A :=
  if i <? 0 then Crash IndexOutOfBounds
  else match nth_error a (Z.to_nat i) with
       | Some x => Done x
       | None => Crash IndexOutOfBounds
       end.

Fixpoint list_update {A : Type} (a : list A) (n : nat) (x : A) : list A :=
  match a, n with
  | [], _ => []
  | _ :: rest, O => x :: rest
  | y :: rest, S n' => y :: list_update rest n' x
  end.

Definition array_set {A : Type} (a : list A) (i : Z) (x : A) : Run (list A) :=
  if i <? 0 then Crash IndexOutOfBounds
  else if (Z.to_nat i <? List.length a)%nat then Done (list_update a (Z.to_nat i) x)
  else Crash IndexOutOfBounds.

(** [a.compare(b) == 0] on [std::string]. *)
Definition compare_is_0 (a b : string) : bool :=
  match String.compare a b with
  | Eq => true
  | _ => false
  end.

(** ** The data of the scene manager *)

(** Modelled from the spec: [TEXTURE_INFO] is declared in SceneManager.h,
    which is not among the sources; the spec's texture entry is
    {tag: string, handle: opaque backend resource identifier}. *)
Module TEXTURE_INFO.
Record t := mk { tag : string; ID : Z }.
Definition set_ID (e : t) (v : Z) : t := mk (tag e) v.
Definition set_tag (e : t) (v : string) : t := mk v (ID e).
End TEXTURE_INFO.

(** Modelled from the spec: [OBJECT_MATERIAL] is declared in SceneManager.h,
    which is not among the sources; the spec's material entry is
    {tag, diffuseColor: 3 floats, specularColor: 3 floats, shininess}. *)
Module OBJECT_MATERIAL.
Record t := mk {
  diffuseColor : glm.vec3;
  specularColor : glm.vec3;
  shininess : R;
  tag : string
}.
End OBJECT_MATERIAL.

(** A pointer to an object of the program: null, or the object. *)
Inductive pointer := NULL | Object (id : positive).

Definition is_NULL (p : pointer) : bool :=
  match p with
  | NULL => true
  | Object _ => false
  end.

(** The fields of [SceneManager] that the methods read and write.
    [m_basicMeshes] is allocated by the constructor and never null; its
    draw calls appear as events below. *)
Record SceneManager := mkSceneManager {
  m_pShaderManager : pointer;
  m_textureIDs : list TEXTURE_INFO.t;
  m_loadedTextures : Z;
  m_objectMaterials : list OBJECT_MATERIAL.t
}.

(** The constructor: sixteen texture slots, each set to tag "/0" and ID -1,
    no texture loaded, no material defined. *)
Definition SceneManager_new (pShaderManager : pointer) : SceneManager :=
  mkSceneManager pShaderManager
                 (repeat (TEXTURE_INFO.mk "/0" (-1)) 16)
                 0
                 [].

(** ** Calls that leave the scene manager *)

(** The calls made on the shader manager (a uniform's name and value) and on
    the shape meshes (a draw). *)
Inductive Event :=
| setMat4Value (name : string) (v : glm.mat4)
| setIntValue (name : string) (v : Z)
| setBoolValue (name : string) (v : bool)
| setFloatValue (name : string) (v : R)
| setVec2Value (name : string) (v : glm.vec2)
| setVec3Value (name : string) (v : glm.vec3)
| setVec4Value (name : string) (v : glm.vec4)
| setSampler2DValue (name : string) (v : Z)
| DrawPlaneMesh
| DrawCylinderMesh
| DrawTorusMesh
| DrawBoxMesh
| DrawSphereMesh.

(** What a [void] method did: the calls it made, in order, and how it
    ended. *)
Definition Outcome : Type := list Event * Run unit.

Definition Completed (calls : list Event) : Outcome := (calls, Done tt).

Definition skip : Outcome := Completed [].

Definition call (e : Event) : Outcome := Completed [e].

(** [p->method(...)]: undefined behaviour when [p] is null. *)
Definition call_through (p : pointer) (e : Event) : Outcome :=
  match p with
  | NULL => ([], Crash NullPointerDereference)
  | Object _ => call e
  end.

(** The result of a function that makes no call, as an outcome. *)
Definition from_Run {A : Type} (m : Run A) (k : A -> Outcome) : Outcome :=
  match m with
  | Done a => k a
  | Crash f => ([], Crash f)
  | OutOfFuel => ([], OutOfFuel)
  end.

(** One statement after the other: the second runs only if the first
    returned. *)
Definition andThen (o1 o2 : Outcome) : Outcome :=
  match snd o1 with
  | Done _ => (fst o1 ++ fst o2, snd o2)
  | _ => o1
  end.

Notation "o1 ;; o2" := (andThen o1 o2) (at level 61, left associativity).

(** [for (int i = start; i < start + count; i++) body(i)]. *)
Fixpoint for_loop (count : nat) (i : Z) (body : Z -> Outcome) : Outcome :=
  match count with
  | O => skip
  | S count' => body i ;; for_loop count' (i + 1) body
  end.

(** The draw calls among the calls made. *)
Definition is_draw (e : Event) : bool :=
  match e with
  | DrawPlaneMesh | DrawCylinderMesh | DrawTorusMesh | DrawBoxMesh
  | DrawSphereMesh => true
  | _ => false
  end.

Definition draw_calls (o : Outcome) : list Event := filter is_draw (fst o).

Definition returned (o : Outcome) : Prop := snd o = Done tt.

(** [runs o ds]: the method returned and its draw calls were [ds]. *)
Definition runs (o : Outcome) (ds : list Event) : Prop :=
  returned o /\ draw_calls o = ds.

(** ** Textures *)

(** What [stbi_load] returns for a file it could decode (the pixels are left
    out: no method of the scene manager looks at them). *)
Record STBImage := mkSTBImage { width : Z; height : Z; colorChannels : Z }.

(** [CreateGLTexture(filename, tag)].  [image] is the result of [stbi_load]
    on [filename] ([None] for the null pointer) and [textureID] the name
    that [glGenTextures] writes.  The OpenGL calls that upload the image
    touch no field of the scene manager and are left out. *)
Definition CreateGLTexture (image : option STBImage) (textureID : Z)
    (tag : string) (s : SceneManager) : Run (bool * SceneManager) :=
  match image with
  | Some img =>
      let register :=
        let i := m_loadedTextures s in
        let* e := array_get (m_textureIDs s) i in
        let* ids := array_set (m_textureIDs s) i (TEXTURE_INFO.set_ID e textureID) in
        let* e' := array_get ids i in
        let* ids' := array_set ids i (TEXTURE_INFO.set_tag e' tag) in
        Done (true, mkSceneManager (m_pShaderManager s) ids' (i + 1)
                                   (m_objectMaterials s)) in
      if colorChannels img =? 3 then register
      else if colorChannels img =? 4 then register
      else Done (false, s)
  | None => Done (false, s)
  end.

(** The loop of [FindTextureID]; [fuel] bounds its iterations. *)
Fixpoint FindTextureID_while (fuel : nat) (s : SceneManager) (tag : string)
    (textureID index : Z) (bFound : bool) : Run Z :=
  if (index <? m_loadedTextures s) && negb bFound then
    match fuel with
    | O => OutOfFuel
    | S fuel' =>
        let* e := array_get (m_textureIDs s) index in
        if compare_is_0 (TEXTURE_INFO.tag e) tag
        then FindTextureID_while fuel' s tag (TEXTURE_INFO.ID e) index true
        else FindTextureID_while fuel' s tag textureID (index + 1) bFound
    end
  else Done textureID.

Definition FindTextureID (tag : string) (s : SceneManager) : Run Z :=
  FindTextureID_while (Z.to_nat (m_loadedTextures s)) s tag (-1) 0 false.

(** The loop of [FindTextureSlot]. *)
Fixpoint FindTextureSlot_while (fuel : nat) (s : SceneManager) (tag : string)
    (textureSlot index : Z) (bFound : bool) : Run Z :=
  if (index <? m_loadedTextures s) && negb bFound then
    match fuel with
    | O => OutOfFuel
    | S fuel' =>
        let* e := array_get (m_textureIDs s) index in
        if compare_is_0 (TEXTURE_INFO.tag e) tag
        then FindTextureSlot_while fuel' s tag index index true
        else FindTextureSlot_while fuel' s tag textureSlot (index + 1) bFound
    end
  else Done textureSlot.

Definition FindTextureSlot (tag : string) (s : SceneManager) : Run Z :=
  FindTextureSlot_while (Z.to_nat (m_loadedTextures s)) s tag (-1) 0 false.

(** ** Materials *)

(** The loop of [FindMaterial]: the values of the loop's variables when it
    stops.  [index] is never negative, so comparing it with the unsigned
    [size()] is the comparison of the two numbers. *)
Fixpoint FindMaterial_while (fuel : nat) (s : SceneManager) (tag : string)
    (index : Z) (bFound : bool) (material : OBJECT_MATERIAL.t)
    : Run (Z * bool * OBJECT_MATERIAL.t) :=
  if (index <? Z.of_nat (List.length (m_objectMaterials s))) && negb bFound then
    match fuel with
    | O => OutOfFuel
    | S fuel' =>
        let* e := array_get (m_objectMaterials s) index in
        if compare_is_0 (OBJECT_MATERIAL.tag e) tag
        then FindMaterial_while fuel' s tag index true
               (OBJECT_MATERIAL.mk (OBJECT_MATERIAL.diffuseColor e)
                                   (OBJECT_MATERIAL.specularColor e)
                                   (OBJECT_MATERIAL.shininess e)
                                   (OBJECT_MATERIAL.tag material))
        else FindMaterial_while fuel' s tag (index + 1) bFound material
    end
  else Done (index, bFound, material).

(** [FindMaterial(tag, material)]: the returned [bool] and the value of the
    reference parameter [material] afterwards. *)
Definition FindMaterial (tag : string) (material : OBJECT_MATERIAL.t)
    (s : SceneManager) : Run (bool * OBJECT_MATERIAL.t) :=
  if Z.of_nat (List.length (m_objectMaterials s)) =? 0 then Done (false, material)
  else
    let* (_, _, material') :=
      FindMaterial_while (List.length (m_objectMaterials s)) s tag 0 false material in
    Done (true, material').

(** [m_objectMaterials.push_back(m)]. *)
Definition push_back_material (m : OBJECT_MATERIAL.t) (s : SceneManager)
    : SceneManager :=
  mkSceneManager (m_pShaderManager s) (m_textureIDs s) (m_loadedTextures s)
                 (m_objectMaterials s ++ [m]).

Definition woodMaterial : OBJECT_MATERIAL.t :=
  OBJECT_MATERIAL.mk (glm.mkVec3 0.2 0.2 0.3) (glm.mkVec3 0.0 0.0 0.0) 5.0 "wood".

Definition ceramicMaterial : OBJECT_MATERIAL.t :=
  OBJECT_MATERIAL.mk (glm.mkVec3 0.4 0.4 0.4) (glm.mkVec3 0.2 0.2 0.2) 30.0 "mug".

Definition tackleMaterial : OBJECT_MATERIAL.t :=
  OBJECT_MATERIAL.mk (glm.mkVec3 0.4 0.4 0.4) (glm.mkVec3 0.2 0.2 0.2) 15.0
                     "tackleBox".

Definition fishMaterial : OBJECT_MATERIAL.t :=
  OBJECT_MATERIAL.mk (glm.mkVec3 0.6 0.6 0.6) (glm.mkVec3 0.3 0.3 0.3) 50.0 "fish".

Definition corkMaterial : OBJECT_MATERIAL.t :=
  OBJECT_MATERIAL.mk (glm.mkVec3 0.8 0.6 0.4) (glm.mkVec3 0.1 0.1 0.1) 5.0 "cork".

Definition DefineObjectMaterials (s : SceneManager) : SceneManager :=
  push_back_material corkMaterial
    (push_back_material fishMaterial
       (push_back_material tackleMaterial
          (push_back_material ceramicMaterial
             (push_back_material woodMaterial s)))).

(** ** Shader state for the next draw *)

Definition g_ModelName : string := "model".
Definition g_ColorValueName : string := "objectColor".
Definition g_TextureValueName : string := "objectTexture".
Definition g_UseTextureName : string := "bUseTexture".
Definition g_UseLightingName : string := "bUseLighting".

(** The matrix [SetTransformations] builds in [modelView]; the C++ product
    [a * b * c * d * e] associates to the left. *)
Definition modelView (scaleXYZ : glm.vec3)
    (XrotationDegrees YrotationDegrees ZrotationDegrees : R)
    (positionXYZ : glm.vec3) : glm.mat4 :=
  let scale := glm.scale scaleXYZ in
  let rotationX := glm.rotate (glm.radians XrotationDegrees) (glm.mkVec3 1 0 0) in
  let rotationY := glm.rotate (glm.radians YrotationDegrees) (glm.mkVec3 0 1 0) in
  let rotationZ := glm.rotate (glm.radians ZrotationDegrees) (glm.mkVec3 0 0 1) in
  let translation := glm.translate positionXYZ in
  glm.mat4_mul
    (glm.mat4_mul (glm.mat4_mul (glm.mat4_mul translation rotationZ) rotationY)
                  rotationX)
    scale.

Definition SetTransformations (scaleXYZ : glm.vec3)
    (XrotationDegrees YrotationDegrees ZrotationDegrees : R)
    (positionXYZ : glm.vec3) (s : SceneManager) : Outcome :=
  let m := modelView scaleXYZ XrotationDegrees YrotationDegrees ZrotationDegrees
                     positionXYZ in
  if negb (is_NULL (m_pShaderManager s))
  then call_through (m_pShaderManager s) (setMat4Value g_ModelName m)
  else skip.

(** [setIntValue(name, false)] passes the [int] 0, [true] the [int] 1. *)
Definition SetShaderColor (redColorValue greenColorValue blueColorValue
    alphaValue : R) (s : SceneManager) : Outcome :=
  let currentColor :=
    glm.mkVec4 redColorValue greenColorValue blueColorValue alphaValue in
  if negb (is_NULL (m_pShaderManager s))
  then call_through (m_pShaderManager s) (setIntValue g_UseTextureName 0) ;;
       call_through (m_pShaderManager s) (setVec4Value g_ColorValueName currentColor)
  else skip.

Definition SetShaderTexture (textureTag : string) (s : SceneManager) : Outcome :=
  if negb (is_NULL (m_pShaderManager s))
  then call_through (m_pShaderManager s) (setIntValue g_UseTextureName 1) ;;
       from_Run (FindTextureSlot textureTag s) (fun textureID =>
         call_through (m_pShaderManager s)
                      (setSampler2DValue g_TextureValueName textureID))
  else skip.

Definition SetTextureUVScale (u v : R) (s : SceneManager) : Outcome :=
  if negb (is_NULL (m_pShaderManager s))
  then call_through (m_pShaderManager s) (setVec2Value "UVscale" (glm.mkVec2 u v))
  else skip.

(** [SetShaderMaterial(materialTag)].  The local [material] is declared
    without an initial value; [indeterminate] stands for what it holds. *)
Definition SetShaderMaterial (indeterminate : OBJECT_MATERIAL.t)
    (materialTag : string) (s : SceneManager) : Outcome :=
  if 0 <? Z.of_nat (List.length (m_objectMaterials s)) then
    from_Run (FindMaterial materialTag indeterminate s) (fun '(bReturn, material) =>
      if bReturn then
        call_through (m_pShaderManager s)
          (setVec3Value "material.diffuseColor" (OBJECT_MATERIAL.diffuseColor material)) ;;
        call_through (m_pShaderManager s)
          (setVec3Value "material.specularColor" (OBJECT_MATERIAL.specularColor material)) ;;
        call_through (m_pShaderManager s)
          (setFloatValue "material.shininess" (OBJECT_MATERIAL.shininess material))
      else skip)
  else skip.

Definition SetupSceneLights (s : SceneManager) : Outcome :=
  let sm := m_pShaderManager s in
  call_through sm (setBoolValue g_UseLightingName true) ;;
  (let dir := glm.normalize (glm.mkVec3 0.3 (-1.0) 0.5) in
   call_through sm (setVec3Value "directionalLight.direction" dir)) ;;
  call_through sm (setVec3Value "directionalLight.ambient" (glm.mkVec3 0.15 0.15 0.15)) ;;
  call_through sm (setVec3Value "directionalLight.diffuse" (glm.mkVec3 1.0 0.95 0.8)) ;;
  call_through sm (setVec3Value "directionalLight.specular" (glm.mkVec3 0.8 0.8 0.8)) ;;
  call_through sm (setBoolValue "directionalLight.bActive" true) ;;
  call_through sm (setVec3Value "pointLights[0].position" (glm.mkVec3 (-2.0) 6.0 (-4.0))) ;;
  call_through sm (setVec3Value "pointLights[0].ambient" (glm.mkVec3 0.2 0.2 0.2)) ;;
  call_through sm (setVec3Value "pointLights[0].diffuse" (glm.mkVec3 1.0 0.98 0.9)) ;;
  call_through sm (setVec3Value "pointLights[0].specular" (glm.mkVec3 0.8 0.8 0.8)) ;;
  call_through sm (setFloatValue "pointLights[0].constant" 1.0) ;;
  call_through sm (setFloatValue "pointLights[0].linear" 0.045) ;;
  call_through sm (setFloatValue "pointLights[0].quadratic" 0.0075) ;;
  call_through sm (setBoolValue "pointLights[0].bActive" true).

(** ** The render script *)

Definition eyeletPositions : list R := [2.5; 4.5; 6.5; 8.5; 10.5]%R.
Definition steamHeights : list R := [2.2; 2.5; 2.8]%R.
Definition steamOffsets : list R := [0.1; -0.1; 0.0]%R.

(** [a[i]] for a local array read inside its bounds. *)
Definition elem (a : list R) (i : Z) : R := nth (Z.to_nat i) a 0%R.

(** [RenderScene()], statement by statement.  No field of the scene manager
    is written; [indeterminate] is handed to every [SetShaderMaterial]. *)
Definition RenderScene (indeterminate : OBJECT_MATERIAL.t) (s : SceneManager)
    : Outcome :=
  (* the plane *)
  SetTransformations (glm.mkVec3 25.0 1.0 15.0) 0.0 0.0 0.0 (glm.mkVec3 0.0 (-0.5) 0.0) s ;;
  SetShaderTexture "tableTexture" s ;;
  SetTextureUVScale 4.0 3.0 s ;;
  SetShaderMaterial indeterminate "wood" s ;;
  call DrawPlaneMesh ;;
  (* coffee mug *)
  SetTransformations (glm.mkVec3 1.2 2.0 1.2) 0.0 30.0 0.0 (glm.mkVec3 4.0 0.0 0.0) s ;;
  SetShaderColor 1.0 1.0 1.0 1.0 s ;;
  SetShaderTexture "mugTexture" s ;;
  SetTextureUVScale 1.0 1.0 s ;;
  SetShaderMaterial indeterminate "mug" s ;;
  call DrawCylinderMesh ;;
  (* torus for the mug handle *)
  SetTransformations (glm.mkVec3 0.5 0.75 0.5) 0.0 0.0 0.0 (glm.mkVec3 5.25 1.0 0.0) s ;;
  SetShaderColor 1.0 1.0 1.0 1.0 s ;;
  SetShaderTexture "mugTexture" s ;;
  SetTextureUVScale 1.0 1.0 s ;;
  SetShaderMaterial indeterminate "mug" s ;;
  call DrawTorusMesh ;;
  (* coffee liquid *)
  SetTransformations (glm.mkVec3 1.1 0.1 1.1) 0.0 30.0 0.0 (glm.mkVec3 4.0 1.91 0.0) s ;;
  SetShaderColor 0.2 0.1 0.05 1.0 s ;;
  call DrawCylinderMesh ;;
  (* tackle box *)
  SetTransformations (glm.mkVec3 4.0 2.0 2.5) 0.0 15.0 0.0 (glm.mkVec3 (-4.0) 1.0 (-1.0)) s ;;
  SetShaderColor 1.0 1.0 1.0 1.0 s ;;
  SetShaderTexture "boxTexture" s ;;
  SetTextureUVScale 1.0 1.0 s ;;
  SetShaderMaterial indeterminate "tackleBox" s ;;
  call DrawBoxMesh ;;
  (* fishing rod, cork handle *)
  SetTransformations (glm.mkVec3 0.3 3.0 0.3) 0.0 (-20.0) 90.0 (glm.mkVec3 0.0 0.15 2.0) s ;;
  SetShaderColor 1.0 1.0 1.0 1.0 s ;;
  SetShaderTexture "corkTexture" s ;;
  SetTextureUVScale 1.0 1.0 s ;;
  SetShaderMaterial indeterminate "cork" s ;;
  call DrawCylinderMesh ;;
  (* rod shaft *)
  SetTransformations (glm.mkVec3 0.15 14.0 0.15) 0.0 (-20.0) 90.0 (glm.mkVec3 1.25 0.15 2.0) s ;;
  SetShaderColor 1.0 1.0 1.0 1.0 s ;;
  SetShaderTexture "rodTexture" s ;;
  SetTextureUVScale 1.0 3.0 s ;;
  call DrawCylinderMesh ;;
  (* fishing reel *)
  SetTransformations (glm.mkVec3 0.6 0.2 0.6) 0.0 0.0 0.0 (glm.mkVec3 0.65 0.05 2.75) s ;;
  SetShaderColor 1.0 1.0 1.0 1.0 s ;;
  SetShaderTexture "reelTexture" s ;;
  SetTextureUVScale 1.0 1.0 s ;;
  SetShaderMaterial indeterminate "tackleBox" s ;;
  call DrawCylinderMesh ;;
  (* side of the fishing reel *)
  SetTransformations (glm.mkVec3 0.3 0.1 0.3) 0.0 0.0 0.0 (glm.mkVec3 0.65 0.2 2.75) s ;;
  SetShaderColor 0.2 0.2 0.2 1.0 s ;;
  SetShaderMaterial indeterminate "tackleBox" s ;;
  call DrawCylinderMesh ;;
  (* fish body *)
  SetTransformations (glm.mkVec3 3.0 0.8 0.4) 270.0 10.0 0.0 (glm.mkVec3 0.0 (-0.4) 6.0) s ;;
  SetShaderColor 1.0 1.0 1.0 1.0 s ;;
  SetShaderTexture "troutTexture" s ;;
  SetTextureUVScale 2.0 1.0 s ;;
  SetShaderMaterial indeterminate "fish" s ;;
  call DrawSphereMesh ;;
  (* fish eye *)
  SetTransformations (glm.mkVec3 0.15 0.15 0.05) 270.0 10.0 10.0 (glm.mkVec3 (-2.3) (-0.2) 6.1) s ;;
  SetShaderColor 0.1 0.1 0.1 1.0 s ;;
  call DrawSphereMesh ;;
  (* fish tail *)
  SetTransformations (glm.mkVec3 0.8 0.1 0.8) 0.0 54.0 0.0 (glm.mkVec3 2.95 (-0.4) 5.475) s ;;
  SetShaderColor 1.0 1.0 1.0 1.0 s ;;
  SetShaderTexture "tailTexture" s ;;
  SetTextureUVScale 1.0 1.0 s ;;
  SetShaderMaterial indeterminate "fish" s ;;
  call DrawBoxMesh ;;
  (* fishing rod eyelets *)
  for_loop 5 0 (fun i =>
    let positionXYZ :=
      glm.mkVec3 (-15.0 + elem eyeletPositions i * cos (glm.radians (-20.0)))%R
           0.15
           (2.26 + elem eyeletPositions i * sin (glm.radians 0.0))%R in
    SetTransformations (glm.mkVec3 0.15 0.15 0.15) 0.0 90.0 0.0 positionXYZ s ;;
    SetShaderColor 0.2 0.2 0.2 1.0 s ;;
    SetShaderMaterial indeterminate "tackleBox" s ;;
    call DrawTorusMesh) ;;
  (* steam particles *)
  SetShaderColor 1.0 1.0 1.0 0.3 s ;;
  for_loop 3 0 (fun i =>
    let positionXYZ :=
      glm.mkVec3 (4.0 + elem steamOffsets i)%R (elem steamHeights i) 0.0 in
    SetTransformations (glm.mkVec3 0.2 0.2 0.2) 0.0 0.0 0.0 positionXYZ s ;;
    call DrawSphereMesh).

(** ** A run of texture loads *)

(** One call [CreateGLTexture(filename, tag)] together with what the image
    decoder and OpenGL answer during it. *)
Record TextureLoad := mkTextureLoad {
  load_image : option STBImage;
  load_textureID : Z;
  load_tag : string
}.

(** The calls made one after the other; the result lists the loads that
    returned [true], in order, next to the final scene manager. *)
Fixpoint CreateGLTextures (loads : list TextureLoad) (s : SceneManager)
    : Run (list TextureLoad * SceneManager) :=
  match loads with
  | [] => Done ([], s)
  | l :: rest =>
      let* (ok, s1) := CreateGLTexture (load_image l) (load_textureID l) (load_tag l) s in
      let* (loaded, s2) := CreateGLTextures rest s1 in
      Done (if ok : bool then l :: loaded else loaded, s2)
  end.

(** The load decodes to an image that [CreateGLTexture] accepts. *)
Definition loadable (l : TextureLoad) : bool :=
  match load_image l with
  | Some img => (colorChannels img =? 3) || (colorChannels img =? 4)
  | None => false
  end.

(** The tag is among the registered entries, slots [0] to
    [m_loadedTextures - 1]. *)
Definition registered (tag : string) (s : SceneManager) : Prop :=
  exists i e, 0 <= i < m_loadedTextures s /\
              nth_error (m_textureIDs s) (Z.to_nat i) = Some e /\
              TEXTURE_INFO.tag e = tag.

(** The texture array as the constructor and [CreateGLTexture] keep it:
    sixteen slots, of which the first [m_loadedTextures] are in use. *)
Definition textures_ok (s : SceneManager) : Prop :=
  List.length (m_textureIDs s) = 16%nat /\ 0 <= m_loadedTextures s <= 16.

(** [holds s ls]: the registry of [s] holds exactly the loads [ls], the
    i-th of them in slot i. *)
Definition holds (s : SceneManager) (ls : list TextureLoad) : Prop :=
  textures_ok s
  /\ m_loadedTextures s = Z.of_nat (List.length ls)
  /\ forall i l, nth_error ls i = Some l ->
       nth_error (m_textureIDs s) i
       = Some (TEXTURE_INFO.mk (load_tag l) (load_textureID l)).

(** Sample runs of texture loads: two loads under one tag; and a load that
    fails on a one-channel image between two that succeed. *)
Definition duplicate_loads : list TextureLoad :=
  [mkTextureLoad (Some (mkSTBImage 64 64 3)) 7 "mugTexture";
   mkTextureLoad (Some (mkSTBImage 64 64 3)) 9 "mugTexture"].

Definition duplicate_scene : SceneManager :=
  mkSceneManager NULL
    (TEXTURE_INFO.mk "mugTexture" 7 :: TEXTURE_INFO.mk "mugTexture" 9
       :: repeat (TEXTURE_INFO.mk "/0" (-1)) 14)
    2 [].

Definition sample_loads : list TextureLoad :=
  [mkTextureLoad (Some (mkSTBImage 64 64 3)) 7 "mugTexture";
   mkTextureLoad (Some (mkSTBImage 64 64 1)) 8 "tableTexture";
   mkTextureLoad (Some (mkSTBImage 64 64 4)) 9 "tableTexture"].

Definition sample_loaded : list TextureLoad :=
  [mkTextureLoad (Some (mkSTBImage 64 64 3)) 7 "mugTexture";
   mkTextureLoad (Some (mkSTBImage 64 64 4)) 9 "tableTexture"].

(** The scene manager after [sample_loads], and the same with the materials
    of [DefineObjectMaterials]. *)
Definition sample_scene : SceneManager :=
  mkSceneManager (Object 1)
    (TEXTURE_INFO.mk "mugTexture" 7 :: TEXTURE_INFO.mk "tableTexture" 9
       :: repeat (TEXTURE_INFO.mk "/0" (-1)) 14)
    2 [].

Definition prepared_scene : SceneManager := DefineObjectMaterials sample_scene.

(** The draw calls of one pass over the render script, object by object. *)
Definition scene_draws : list Event :=
  [ DrawPlaneMesh      (* plane *)
  ; DrawCylinderMesh   (* mug body *)
  ; DrawTorusMesh      (* mug handle *)
  ; DrawCylinderMesh   (* coffee surface *)
  ; DrawBoxMesh        (* tackle box *)
  ; DrawCylinderMesh   (* rod handle *)
  ; DrawCylinderMesh   (* rod shaft *)
  ; DrawCylinderMesh   (* reel body *)
  ; DrawCylinderMesh   (* reel side *)
  ; DrawSphereMesh     (* fish body *)
  ; DrawSphereMesh     (* fish eye *)
  ; DrawBoxMesh        (* fish tail *)
  ; DrawTorusMesh; DrawTorusMesh; DrawTorusMesh; DrawTorusMesh; DrawTorusMesh
                       (* five rod eyelets *)
  ; DrawSphereMesh; DrawSphereMesh; DrawSphereMesh
                       (* three steam particles *) ].

(** ** The transform contract in the spec's words

    [Translate(T) . RotateZ(Zdeg) . RotateY(Ydeg) . RotateX(Xdeg) . Scale(S)]
    with the textbook matrices for column vectors and the row-by-column
    product.  These definitions follow the spec, not the code. *)
Module TransformSpec.

Local Open Scope R_scope.

(** A matrix given by its rows. *)
Definition rows (r0 r1 r2 r3 : glm.vec4) : glm.mat4 :=
  glm.mkMat4 (glm.mkVec4 (glm.v4x r0) (glm.v4x r1) (glm.v4x r2) (glm.v4x r3))
             (glm.mkVec4 (glm.v4y r0) (glm.v4y r1) (glm.v4y r2) (glm.v4y r3))
             (glm.mkVec4 (glm.v4z r0) (glm.v4z r1) (glm.v4z r2) (glm.v4z r3))
             (glm.mkVec4 (glm.v4w r0) (glm.v4w r1) (glm.v4w r2) (glm.v4w r3)).

Definition row (m : glm.mat4) (i : nat) : glm.vec4 :=
  let pick (c : glm.vec4) :=
    match i with
    | 0%nat => glm.v4x c
    | 1%nat => glm.v4y c
    | 2%nat => glm.v4z c
    | _ => glm.v4w c
    end in
  glm.mkVec4 (pick (glm.col0 m)) (pick (glm.col1 m)) (pick (glm.col2 m))
             (pick (glm.col3 m)).

Definition column (m : glm.mat4) (j : nat) : glm.vec4 :=
  match j with
  | 0%nat => glm.col0 m
  | 1%nat => glm.col1 m
  | 2%nat => glm.col2 m
  | _ => glm.col3 m
  end.

Definition dot4 (a b : glm.vec4) : R :=
  glm.v4x a * glm.v4x b + glm.v4y a * glm.v4y b + glm.v4z a * glm.v4z b
  + glm.v4w a * glm.v4w b.

(** Entry (i, j) of [A . B] is row [i] of [A] times column [j] of [B]. *)
Definition product (A B : glm.mat4) : glm.mat4 :=
  let entries (j : nat) :=
    glm.mkVec4 (dot4 (row A 0) (column B j)) (dot4 (row A 1) (column B j))
               (dot4 (row A 2) (column B j)) (dot4 (row A 3) (column B j)) in
  glm.mkMat4 (entries 0%nat) (entries 1%nat) (entries 2%nat) (entries 3%nat).

Definition Scale (S : glm.vec3) : glm.mat4 :=
  rows (glm.mkVec4 (glm.v3x S) 0 0 0)
       (glm.mkVec4 0 (glm.v3y S) 0 0)
       (glm.mkVec4 0 0 (glm.v3z S) 0)
       (glm.mkVec4 0 0 0 1).

Definition Translate (T : glm.vec3) : glm.mat4 :=
  rows (glm.mkVec4 1 0 0 (glm.v3x T))
       (glm.mkVec4 0 1 0 (glm.v3y T))
       (glm.mkVec4 0 0 1 (glm.v3z T))
       (glm.mkVec4 0 0 0 1).

Definition deg (d : R) : R := d * PI / 180.

Definition RotateX (Xdeg : R) : glm.mat4 :=
  rows (glm.mkVec4 1 0 0 0)
       (glm.mkVec4 0 (cos (deg Xdeg)) (- sin (deg Xdeg)) 0)
       (glm.mkVec4 0 (sin (deg Xdeg)) (cos (deg Xdeg)) 0)
       (glm.mkVec4 0 0 0 1).

Definition RotateY (Ydeg : R) : glm.mat4 :=
  rows (glm.mkVec4 (cos (deg Ydeg)) 0 (sin (deg Ydeg)) 0)
       (glm.mkVec4 0 1 0 0)
       (glm.mkVec4 (- sin (deg Ydeg)) 0 (cos (deg Ydeg)) 0)
       (glm.mkVec4 0 0 0 1).

Definition RotateZ (Zdeg : R) : glm.mat4 :=
  rows (glm.mkVec4 (cos (deg Zdeg)) (- sin (deg Zdeg)) 0 0)
       (glm.mkVec4 (sin (deg Zdeg)) (cos (deg Zdeg)) 0 0)
       (glm.mkVec4 0 0 1 0)
       (glm.mkVec4 0 0 0 1).

(** The contract's matrix. *)
Definition M (S : glm.vec3) (Xdeg Ydeg Zdeg : R) (T : glm.vec3) : glm.mat4 :=
  product (Translate T)
    (product (RotateZ Zdeg)
       (product (RotateY Ydeg) (product (RotateX Xdeg) (Scale S)))).

End TransformSpec.

(** ** The image decoder, OpenGL, the console and the shape meshes

    The calls the scene manager makes on its surroundings, in the order it
    makes them.  What the surroundings answer (the decoded image, the
    texture name that [glGenTextures] writes) is an input of the model. *)

Inductive GLenum :=
| GL_TEXTURE_2D
| GL_TEXTURE_WRAP_S
| GL_TEXTURE_WRAP_T
| GL_REPEAT
| GL_TEXTURE_MIN_FILTER
| GL_TEXTURE_MAG_FILTER
| GL_LINEAR
| GL_RGB8
| GL_RGB
| GL_RGBA8
| GL_RGBA
| GL_UNSIGNED_BYTE.

(** What is sent to [std::cout] with one [<<]. *)
Inductive Piece := Text (s : string) | Number (n : Z) | Endl.

(** [stbi_image_free] and [glTexImage2D] receive the pointer to the decoded
    image; [glActiveTexture (i)] stands for [glActiveTexture(GL_TEXTURE0 + i)]
    and [glGenTextures n name] for a call with count [n] that writes
    [name]. *)
Inductive HostCall :=
| stbi_set_flip_vertically_on_load (flag : bool)
| stbi_load (filename : string)
| stbi_image_free (image : STBImage)
| glGenTextures (n : Z) (name : Z)
| glBindTexture (target : GLenum) (texture : Z)
| glTexParameteri (target pname param : GLenum)
| glTexImage2D (target : GLenum) (level : Z) (internalformat : GLenum)
               (w h border : Z) (format type : GLenum) (pixels : STBImage)
| glGenerateMipmap (target : GLenum)
| glActiveTexture (unit : Z)
| cout (line : list Piece).

Inductive MeshCall :=
| LoadPlaneMesh
| LoadCylinderMesh
| LoadTorusMesh
| LoadBoxMesh
| LoadSphereMesh.

Inductive Call :=
| OnHost (c : HostCall)
| OnShader (e : Event)
| OnMeshes (m : MeshCall).

(** A method that makes calls of kind [E] and returns an [A]: the calls made
    up to the return or the fault, and the result. *)
Definition Traced (E A : Type) : Type := list E * Run A.

Definition ret {E A : Type} (a : A) : Traced E A := ([], Done a).

Definition emit {E : Type} (calls : list E) : Traced E unit := (calls, Done tt).

Definition lift {E A : Type} (r : Run A) : Traced E A := ([], r).

Definition bind {E A B : Type} (m : Traced E A) (k : A -> Traced E B)
    : Traced E B :=
  match snd m with
  | Done a => let r := k a in (fst m ++ fst r, snd r)
  | Crash f => (fst m, Crash f)
  | OutOfFuel => (fst m, OutOfFuel)
  end.

Definition relabel {E F A : Type} (f : E -> F) (m : Traced E A) : Traced F A :=
  (map f (fst m), snd m).

Notation "'do' x '<-' m 'in' k" := (bind m (fun x => k))
  (at level 10, x pattern, m at level 200, k at level 200).

(** The last statements of [CreateGLTexture]: the entry is written into
    the next slot and the count goes up. *)
Definition register_texture (textureID : Z) (tag : string) (s : SceneManager)
    : Run (bool * SceneManager) :=
  let i := m_loadedTextures s in
  let* e := array_get (m_textureIDs s) i in
  let* ids := array_set (m_textureIDs s) i (TEXTURE_INFO.set_ID e textureID) in
  let* e' := array_get ids i in
  let* ids' := array_set ids i (TEXTURE_INFO.set_tag e' tag) in
  Done (true, mkSceneManager (m_pShaderManager s) ids' (i + 1)
                             (m_objectMaterials s)).

(** [CreateGLTexture(filename, tag)] with every call it makes. *)
Definition CreateGLTexture_traced (image : option STBImage) (textureID : Z)
    (filename tag : string) (s : SceneManager)
    : Traced HostCall (bool * SceneManager) :=
  do _ <- emit [stbi_set_flip_vertically_on_load true; stbi_load filename] in
  match image with
  | Some img =>
      do _ <- emit [cout [Text "Successfully loaded image:"; Text filename;
                          Text ", width:"; Number (width img);
                          Text ", height:"; Number (height img);
                          Text ", channels:"; Number (colorChannels img); Endl];
                    glGenTextures 1 textureID;
                    glBindTexture GL_TEXTURE_2D textureID;
                    glTexParameteri GL_TEXTURE_2D GL_TEXTURE_WRAP_S GL_REPEAT;
                    glTexParameteri GL_TEXTURE_2D GL_TEXTURE_WRAP_T GL_REPEAT;
                    glTexParameteri GL_TEXTURE_2D GL_TEXTURE_MIN_FILTER GL_LINEAR;
                    glTexParameteri GL_TEXTURE_2D GL_TEXTURE_MAG_FILTER GL_LINEAR] in
      let finish :=
        do _ <- emit [glGenerateMipmap GL_TEXTURE_2D;
                      stbi_image_free img;
                      glBindTexture GL_TEXTURE_2D 0] in
        lift (register_texture textureID tag s) in
      if colorChannels img =? 3 then
        do _ <- emit [glTexImage2D GL_TEXTURE_2D 0 GL_RGB8 (width img) (height img)
                                   0 GL_RGB GL_UNSIGNED_BYTE img] in
        finish
      else if colorChannels img =? 4 then
        do _ <- emit [glTexImage2D GL_TEXTURE_2D 0 GL_RGBA8 (width img) (height img)
                                   0 GL_RGBA GL_UNSIGNED_BYTE img] in
        finish
      else
        do _ <- emit [cout [Text "Not implemented to handle image with ";
                            Number (colorChannels img); Text " channels"; Endl]] in
        ret (false, s)
  | None =>
      do _ <- emit [cout [Text "Could not load image:"; Text filename; Endl]] in
      ret (false, s)
  end.

(** The loop of [BindGLTextures]: the texture unit is selected before the
    slot is read. *)
Fixpoint BindGLTextures_for (fuel : nat) (s : SceneManager) (i : Z)
    : Traced HostCall unit :=
  if i <? m_loadedTextures s then
    match fuel with
    | O => lift OutOfFuel
    | S fuel' =>
        do _ <- emit [glActiveTexture i] in
        do e <- lift (array_get (m_textureIDs s) i) in
        do _ <- emit [glBindTexture GL_TEXTURE_2D (TEXTURE_INFO.ID e)] in
        BindGLTextures_for fuel' s (i + 1)
    end
  else ret tt.

Definition BindGLTextures (s : SceneManager) : Traced HostCall unit :=
  BindGLTextures_for (Z.to_nat (m_loadedTextures s)) s 0.

(** The loop of [DestroyGLTextures]: [glGenTextures(1, &m_textureIDs[i].ID)]
    writes a new name into slot [i]; [fresh i] is that name. *)
Fixpoint DestroyGLTextures_for (fuel : nat) (fresh : Z -> Z) (s : SceneManager)
    (i : Z) : Traced HostCall SceneManager :=
  if i <? m_loadedTextures s then
    match fuel with
    | O => lift OutOfFuel
    | S fuel' =>
        do e <- lift (array_get (m_textureIDs s) i) in
        do _ <- emit [glGenTextures 1 (fresh i)] in
        do ids <- lift (array_set (m_textureIDs s) i
                                  (TEXTURE_INFO.set_ID e (fresh i))) in
        DestroyGLTextures_for fuel' fresh
          (mkSceneManager (m_pShaderManager s) ids (m_loadedTextures s)
                          (m_objectMaterials s))
          (i + 1)
    end
  else ret s.

Definition DestroyGLTextures (fresh : Z -> Z) (s : SceneManager)
    : Traced HostCall SceneManager :=
  DestroyGLTextures_for (Z.to_nat (m_loadedTextures s)) fresh s 0.

(** What the surroundings answer while a file is loaded: the decoded image
    ([None] when [stbi_load] returns null) and the texture name that
    [glGenTextures] writes. *)
Record Host := mkHost {
  host_image : string -> option STBImage;
  host_textureID : string -> Z
}.

(** The character written for a backslash-n in a C string literal. *)
Definition newline : string := String (Ascii.ascii_of_nat 10) EmptyString.

(** One block of [LoadSceneTextures]: the load, then the line that reports
    how it went. *)
Definition load_and_report (h : Host) (filename tag : string)
    (loaded failed : string) (s : SceneManager) : Traced HostCall SceneManager :=
  do (ok, s') <- CreateGLTexture_traced (host_image h filename)
                   (host_textureID h filename) filename tag s in
  if ok : bool
  then do _ <- emit [cout [Text loaded]] in ret s'
  else do _ <- emit [cout [Text failed]] in ret s'.

Definition LoadSceneTextures (h : Host) (s : SceneManager)
    : Traced HostCall SceneManager :=
  do s <- load_and_report h "Textures/Mug_Texture.jpg" "mugTexture"
            ("Loaded mugTexture (Mug_Texture.jpg) successfully." ++ newline)%string
            ("Failed to load mugTexture (Mug_Texture.jpg)!" ++ newline)%string s in
  do s <- load_and_report h "Textures/Table_Texture.jpg" "tableTexture"
            ("Loaded tableTexture (Table_Texture.jpg) successfully." ++ newline)%string
            ("Failed to load tableTexture (Table_Texture.jpg)!" ++ newline)%string s in
  do s <- load_and_report h "Textures/Trout_Texture.jpg" "troutTexture"
            ("Loaded troutTexture (Trout_Texture.jpg) successfully." ++ newline)%string
            ("Failed to load troutTexture (Trout_Texture.jpg)!" ++ newline)%string s in
  do s <- load_and_report h "Textures/Rod_Texture.jpg" "rodTexture"
            ("Loaded rodTexture (Rod_Texture.jpg) successfully." ++ newline)%string
            ("Failed to load rodTexture (Rod_Texture.jpg)!" ++ newline)%string s in
  do s <- load_and_report h "Textures/Box_Texture.jpg" "boxTexture"
            ("Loaded boxTexture (Box_Texture.jpg) successfully." ++ newline)%string
            ("Failed to load boxTexture (Box_Texture.jpg)!" ++ newline)%string s in
  do s <- load_and_report h "Textures/Cork_Texture.jpg" "corkTexture"
            ("Loaded corkTexture (Cork_Texture.jpg) successfully." ++ newline)%string
            ("Failed to load corkTexture (Cork_Texture.jpg)!" ++ newline)%string s in
  do s <- load_and_report h "Textures/Tail_Texture.jpg" "tailTexture"
            ("Loaded tailTexture (Tail_Texture.jpg) successfully." ++ newline)%string
            ("Failed to load tailTexture (Tail_Texture.jpg)!" ++ newline)%string s in
  do s <- load_and_report h "Textures/Reel_Texture.jpg" "reelTexture"
            ("Loaded reelTexture (Reel_Texture.jpg) successfully." ++ newline)%string
            ("Failed to load reelTexture (Reel_Texture.jpg)!" ++ newline)%string s in
  do _ <- BindGLTextures s in
  ret s.

(** The files and tags of [LoadSceneTextures], in the order of the calls. *)
Definition scene_textures : list (string * string) :=
  [ ("Textures/Mug_Texture.jpg", "mugTexture");
    ("Textures/Table_Texture.jpg", "tableTexture");
    ("Textures/Trout_Texture.jpg", "troutTexture");
    ("Textures/Rod_Texture.jpg", "rodTexture");
    ("Textures/Box_Texture.jpg", "boxTexture");
    ("Textures/Cork_Texture.jpg", "corkTexture");
    ("Textures/Tail_Texture.jpg", "tailTexture");
    ("Textures/Reel_Texture.jpg", "reelTexture") ].

(** The loads that [LoadSceneTextures] makes under the answers of [h]. *)
Definition scene_loads (h : Host) : list TextureLoad :=
  map (fun ft => mkTextureLoad (host_image h (fst ft)) (host_textureID h (fst ft))
                               (snd ft))
      scene_textures.

(** [PrepareScene()]. *)
Definition PrepareScene (h : Host) (s : SceneManager) : Traced Call SceneManager :=
  do s1 <- relabel OnHost (LoadSceneTextures h s) in
  let s2 := DefineObjectMaterials s1 in
  do _ <- relabel OnShader (SetupSceneLights s2) in
  do _ <- emit [OnMeshes LoadPlaneMesh; OnMeshes LoadCylinderMesh;
                OnMeshes LoadTorusMesh; OnMeshes LoadBoxMesh;
                OnMeshes LoadSphereMesh] in
  ret s2.

(** Sample answers: texture names 1 to 8 in the order of
    [scene_textures]; a host that decodes every file to a 64x64 RGB image,
    and one that cannot read the table texture. *)
Fixpoint name_of (filename : string) (files : list (string * string)) (n : Z) : Z :=
  match files with
  | [] => n
  | (f, _) :: rest => if String.eqb f filename then n else name_of filename rest (n + 1)
  end.

Definition sample_host : Host :=
  mkHost (fun _ => Some (mkSTBImage 64 64 3))
         (fun f => name_of f scene_textures 1).

Definition missing_table_host : Host :=
  mkHost (fun f => if String.eqb f "Textures/Table_Texture.jpg" then None
                   else Some (mkSTBImage 64 64 4))
         (fun f => name_of f scene_textures 1).

(** * Properties *)

(** ** The transform composer *)
Section Transform.

Local Open Scope R_scope.

Lemma vec4_eq (a b c d a' b' c' d' : R) :
  a = a' -> b = b' -> c = c' -> d = d' ->
  glm.mkVec4 a b c d = glm.mkVec4 a' b' c' d'.
Proof. intros; subst; reflexivity. Qed.

Lemma mat4_eq (a b c d a' b' c' d' : glm.vec4) :
  a = a' -> b = b' -> c = c' -> d = d' ->
  glm.mkMat4 a b c d = glm.mkMat4 a' b' c' d'.
Proof. intros; subst; reflexivity. Qed.

(** Unfold the matrix operations down to arithmetic on the entries. *)
Ltac to_entries :=
  cbv [glm.mat4_mul glm.mat4_mul_col glm.mat4_mul_vec4 glm.vec4_add
       glm.vec4_scale glm.vec3_scale glm.vec3_lscale glm.mat4_identity
       glm.scale glm.scale_mat glm.translate glm.translate_mat
       glm.rotate glm.rotate_mat
       glm.col0 glm.col1 glm.col2 glm.col3
       glm.v4x glm.v4y glm.v4z glm.v4w glm.v3x glm.v3y glm.v3z
       TransformSpec.rows TransformSpec.row TransformSpec.column
       TransformSpec.dot4 TransformSpec.product
       TransformSpec.Scale TransformSpec.Translate TransformSpec.RotateX
       TransformSpec.RotateY TransformSpec.RotateZ].

Ltac entrywise := to_entries; apply mat4_eq; apply vec4_eq.

Lemma inversesqrt_1 : glm.inversesqrt 1 = 1.
Proof. unfold glm.inversesqrt. rewrite sqrt_1. field. Qed.

(** The three axes are unit vectors: normalising leaves them alone. *)
Lemma normalize_axis (x y z : R) :
  x * x + y * y + z * z = 1 ->
  glm.normalize (glm.mkVec3 x y z) = glm.mkVec3 x y z.
Proof.
  intros H. unfold glm.normalize, glm.dot, glm.vec3_scale. cbn.
  rewrite H, inversesqrt_1. f_equal; ring.
Qed.

Lemma radians_deg (d : R) : glm.radians d = TransformSpec.deg d.
Proof. unfold glm.radians, TransformSpec.deg. field. Qed.

Lemma scale_Scale (S : glm.vec3) : glm.scale S = TransformSpec.Scale S.
Proof. destruct S. entrywise; ring. Qed.

Lemma translate_Translate (T : glm.vec3) :
  glm.translate T = TransformSpec.Translate T.
Proof. destruct T. entrywise; ring. Qed.

Lemma rotate_RotateX (d : R) :
  glm.rotate (glm.radians d) (glm.mkVec3 1 0 0) = TransformSpec.RotateX d.
Proof.
  unfold glm.rotate, glm.rotate_mat.
  rewrite normalize_axis by ring. rewrite radians_deg.
  entrywise; ring.
Qed.

Lemma rotate_RotateY (d : R) :
  glm.rotate (glm.radians d) (glm.mkVec3 0 1 0) = TransformSpec.RotateY d.
Proof.
  unfold glm.rotate, glm.rotate_mat.
  rewrite normalize_axis by ring. rewrite radians_deg.
  entrywise; ring.
Qed.

Lemma rotate_RotateZ (d : R) :
  glm.rotate (glm.radians d) (glm.mkVec3 0 0 1) = TransformSpec.RotateZ d.
Proof.
  unfold glm.rotate, glm.rotate_mat.
  rewrite normalize_axis by ring. rewrite radians_deg.
  entrywise; ring.
Qed.

(** GLM's column-by-column product is the row-by-column product. *)
Lemma mat4_mul_product (A B : glm.mat4) :
  glm.mat4_mul A B = TransformSpec.product A B.
Proof.
  destruct A as [[] [] [] []], B as [[] [] [] []]. entrywise; ring.
Qed.

Lemma product_assoc (A B C : glm.mat4) :
  TransformSpec.product (TransformSpec.product A B) C
  = TransformSpec.product A (TransformSpec.product B C).
Proof.
  destruct A as [[] [] [] []], B as [[] [] [] []], C as [[] [] [] []].
  entrywise; ring.
Qed.

(** The matrix the code builds is the contract's matrix. *)
Lemma modelView_M (S : glm.vec3) (Xdeg Ydeg Zdeg : R) (T : glm.vec3) :
  modelView S Xdeg Ydeg Zdeg T = TransformSpec.M S Xdeg Ydeg Zdeg T.
Proof.
  unfold modelView, TransformSpec.M.
  rewrite scale_Scale, translate_Translate, rotate_RotateX, rotate_RotateY,
    rotate_RotateZ, !mat4_mul_product, !product_assoc.
  reflexivity.
Qed.

Lemma deg_0 : TransformSpec.deg 0 = 0.
Proof. unfold TransformSpec.deg. field. Qed.

Lemma deg_90 : TransformSpec.deg 90 = PI / 2.
Proof. unfold TransformSpec.deg. field. Qed.

(** C1: for every scale vector S, rotation angles Xdeg, Ydeg, Zdeg (in
    degrees) and translation vector T, [SetTransformations] on a scene
    manager that has a shader manager makes exactly one call,
    [setMat4Value("model", M)], where M is
    Translate(T) . RotateZ(Zdeg) . RotateY(Ydeg) . RotateX(Xdeg) . Scale(S). *)
Theorem SetTransformations_pushes_M (S : glm.vec3) (Xdeg Ydeg Zdeg : R)
    (T : glm.vec3) (s : SceneManager) :
  m_pShaderManager s <> NULL ->
  SetTransformations S Xdeg Ydeg Zdeg T s
  = Completed [setMat4Value "model" (TransformSpec.M S Xdeg Ydeg Zdeg T)].
Proof.
  intros Hsm. unfold SetTransformations.
  rewrite modelView_M.
  destruct (m_pShaderManager s) as [|id]; [contradiction|].
  reflexivity.
Qed.

Lemma SetTransformations_pushes_M_witness :
  m_pShaderManager (SceneManager_new (Object 1)) <> NULL /\
  SetTransformations (glm.mkVec3 2 1 1) 0 90 0 (glm.mkVec3 3 0 0)
                     (SceneManager_new (Object 1))
  = Completed [setMat4Value "model"
                 (TransformSpec.M (glm.mkVec3 2 1 1) 0 90 0 (glm.mkVec3 3 0 0))].
Proof.
  split.
  - simpl. discriminate.
  - apply SetTransformations_pushes_M. simpl. discriminate.
Defined.

(** C8: with scale (1,1,1), the three angles 0 and translation (0,0,0) the
    composed matrix is the 4x4 identity matrix. *)
Theorem modelView_identity_inputs :
  modelView (glm.mkVec3 1 1 1) 0 0 0 (glm.mkVec3 0 0 0) = glm.mat4_identity.
Proof.
  rewrite modelView_M. unfold TransformSpec.M.
  unfold TransformSpec.RotateX, TransformSpec.RotateY, TransformSpec.RotateZ.
  rewrite deg_0, cos_0, sin_0.
  entrywise; ring.
Qed.

(** C9: with scale (2,1,1), Y rotation 90 degrees, X and Z rotations 0 and
    translation (3,0,0), the composed matrix sends the local point (1,0,0)
    to the world point (3,0,-2). *)
Theorem modelView_places_point :
  glm.mat4_mul_vec4 (modelView (glm.mkVec3 2 1 1) 0 90 0 (glm.mkVec3 3 0 0))
                    (glm.mkVec4 1 0 0 1)
  = glm.mkVec4 3 0 (-2) 1.
Proof.
  rewrite modelView_M. unfold TransformSpec.M.
  unfold TransformSpec.RotateX, TransformSpec.RotateY, TransformSpec.RotateZ.
  rewrite deg_0, deg_90, cos_0, sin_0, cos_PI2, sin_PI2.
  to_entries. apply vec4_eq; ring.
Qed.

End Transform.

(** ** Strings, arrays and outcomes *)

Lemma compare_is_0_iff (a b : string) : compare_is_0 a b = true <-> a = b.
Proof.
  unfold compare_is_0. split.
  - destruct (String.compare a b) eqn:E; try discriminate.
    intros _. now apply String.compare_eq_iff.
  - intros ->.
    pose proof (String.compare_antisym b b) as H.
    destruct (String.compare b b); simpl in H; congruence.
Qed.

Lemma compare_is_0_false (a b : string) : compare_is_0 a b = false <-> a <> b.
Proof.
  rewrite <- compare_is_0_iff. destruct (compare_is_0 a b); split; congruence.
Qed.

Lemma array_get_Done {A : Type} (a : list A) (i : Z) (x : A) :
  array_get a i = Done x <-> 0 <= i /\ nth_error a (Z.to_nat i) = Some x.
Proof.
  unfold array_get. destruct (Z.ltb_spec i 0).
  - split; [discriminate | lia].
  - destruct (nth_error a (Z.to_nat i)) as [y|]; split.
    + intros [= ->]. split; [lia | reflexivity].
    + intros [_ [= ->]]. reflexivity.
    + discriminate.
    + intros [_ [=]].
Qed.

Lemma array_get_in_range {A : Type} (a : list A) (i : Z) :
  0 <= i < Z.of_nat (List.length a) -> exists x, array_get a i = Done x.
Proof.
  intros Hi. unfold array_get.
  destruct (Z.ltb_spec i 0); [lia|].
  destruct (nth_error a (Z.to_nat i)) eqn:E; [eauto|].
  apply nth_error_None in E. lia.
Qed.

Lemma list_update_length {A : Type} (a : list A) (n : nat) (x : A) :
  List.length (list_update a n x) = List.length a.
Proof.
  revert n; induction a as [|y a IH]; intros [|n]; simpl; auto.
Qed.

Lemma nth_error_list_update {A : Type} (a : list A) (n k : nat) (x : A) :
  nth_error (list_update a n x) k
  = if (k =? n)%nat then (if (n <? List.length a)%nat then Some x else None)
    else nth_error a k.
Proof.
  revert n k; induction a as [|y a IH]; intros n k.
  - destruct n, k; simpl; try reflexivity. now destruct (k =? n)%nat.
  - destruct n as [|n], k as [|k]; simpl; try reflexivity. apply IH.
Qed.

Lemma returned_andThen (o1 o2 : Outcome) :
  returned o1 -> returned o2 -> returned (o1 ;; o2).
Proof.
  unfold returned, andThen. intros -> H2. simpl. exact H2.
Qed.

Lemma draw_calls_andThen (o1 o2 : Outcome) :
  returned o1 -> draw_calls (o1 ;; o2) = draw_calls o1 ++ draw_calls o2.
Proof.
  unfold returned, andThen, draw_calls. intros ->. simpl.
  apply filter_app.
Qed.

Lemma runs_andThen (o1 o2 : Outcome) (d1 d2 : list Event) :
  runs o1 d1 -> runs o2 d2 -> runs (o1 ;; o2) (d1 ++ d2).
Proof.
  intros [R1 D1] [R2 D2]. split.
  - now apply returned_andThen.
  - rewrite draw_calls_andThen by assumption. now subst.
Qed.

Lemma runs_skip : runs skip [].
Proof. split; reflexivity. Qed.

Lemma runs_for_loop (body : Z -> Outcome) (d : list Event) (n : nat) (i : Z) :
  (forall j, runs (body j) d) ->
  runs (for_loop n i body) (List.concat (repeat d n)).
Proof.
  intros Hb. revert i; induction n as [|n IH]; intros i; simpl.
  - apply runs_skip.
  - apply runs_andThen; auto.
Qed.

(** ** The material registry *)
Section Materials.

Variable s : SceneManager.
Variable tag : string.

Lemma FindMaterial_while_found (fuel : nat) (index : Z)
    (material : OBJECT_MATERIAL.t) :
  FindMaterial_while fuel s tag index true material = Done (index, true, material).
Proof. destruct fuel; simpl; now rewrite andb_false_r. Qed.

(** The loop stops within [size - index] iterations. *)
Lemma FindMaterial_while_stops (fuel : nat) :
  forall (index : Z) (bFound : bool) (material : OBJECT_MATERIAL.t),
    0 <= index ->
    Z.of_nat (List.length (m_objectMaterials s)) - index <= Z.of_nat fuel ->
    exists r, FindMaterial_while fuel s tag index bFound material = Done r.
Proof.
  induction fuel as [|fuel IH]; intros index bFound material H0 Hfuel.
  - simpl. destruct (Z.ltb_spec index (Z.of_nat (List.length (m_objectMaterials s))));
      [lia|]. simpl. eauto.
  - simpl.
    destruct (Z.ltb_spec index (Z.of_nat (List.length (m_objectMaterials s))));
      simpl; [|eauto].
    destruct bFound; simpl; [eauto|].
    destruct (array_get_in_range (m_objectMaterials s) index) as [e ->]; [lia|].
    simpl. destruct (compare_is_0 (OBJECT_MATERIAL.tag e) tag).
    + rewrite FindMaterial_while_found. eauto.
    + apply IH; lia.
Qed.

(** No entry carries the tag: the loop leaves [material] as it was. *)
Lemma FindMaterial_while_no_match (fuel : nat) :
  forall (index : Z) (material : OBJECT_MATERIAL.t),
    0 <= index ->
    Z.of_nat (List.length (m_objectMaterials s)) - index <= Z.of_nat fuel ->
    (forall e, In e (m_objectMaterials s) -> OBJECT_MATERIAL.tag e <> tag) ->
    exists index', FindMaterial_while fuel s tag index false material
                   = Done (index', false, material).
Proof.
  induction fuel as [|fuel IH]; intros index material H0 Hfuel Hno.
  - simpl. destruct (Z.ltb_spec index (Z.of_nat (List.length (m_objectMaterials s))));
      [lia|]. simpl. eauto.
  - simpl.
    destruct (Z.ltb_spec index (Z.of_nat (List.length (m_objectMaterials s))));
      simpl; [|eauto].
    destruct (array_get_in_range (m_objectMaterials s) index) as [e He]; [lia|].
    rewrite He. simpl.
    apply array_get_Done in He. destruct He as [_ He].
    apply nth_error_In in He. apply Hno in He.
    apply compare_is_0_false in He. rewrite He.
    apply IH; auto; lia.
Qed.

Lemma FindMaterial_returns (material : OBJECT_MATERIAL.t) :
  exists b material',
    FindMaterial tag material s = Done (b, material')
    /\ (b = false <-> m_objectMaterials s = []).
Proof.
  unfold FindMaterial.
  destruct (m_objectMaterials s) as [|m ms] eqn:E.
  - simpl. exists false, material. repeat split; auto.
  - destruct (Z.eqb_spec (Z.of_nat (List.length (m :: ms))) 0) as [H|_];
      [simpl in H; lia|].
    rewrite <- E.
    destruct (FindMaterial_while_stops (List.length (m_objectMaterials s)) 0 false
                material) as [[[i b] m'] ->]; [lia | lia |].
    simpl. exists true, m'. repeat split; intros; try discriminate.
    congruence.
Qed.

End Materials.

(** C4: for every tag, [FindMaterial] returns false exactly when the
    material registry is empty; on a non-empty registry it returns true,
    also when no entry carries the tag, and then the output parameter keeps
    the value it had before the call. *)
Theorem FindMaterial_false_iff_empty (tag : string)
    (material : OBJECT_MATERIAL.t) (s : SceneManager) :
  exists b material',
    FindMaterial tag material s = Done (b, material')
    /\ (b = false <-> m_objectMaterials s = [])
    /\ ((forall e, In e (m_objectMaterials s) -> OBJECT_MATERIAL.tag e <> tag) ->
        material' = material).
Proof.
  destruct (FindMaterial_returns s tag material) as (b & m' & Hfind & Hb).
  exists b, m'. repeat split; try apply Hb; auto.
  intros Hno. unfold FindMaterial in Hfind.
  destruct (Z.eqb_spec (Z.of_nat (List.length (m_objectMaterials s))) 0) as [H|H].
  - congruence.
  - destruct (FindMaterial_while_no_match s tag
                (List.length (m_objectMaterials s)) 0 material) as [i Hi];
      [lia | lia | assumption |].
    rewrite Hi in Hfind. simpl in Hfind. congruence.
Qed.

(** C7: after a material tagged "wood" and then one tagged "mug" are
    defined, [FindMaterial("mug")] returns true and writes the diffuse
    colour, specular colour and shininess of the "mug" entry; after
    [DefineObjectMaterials] these are (0.4,0.4,0.4), (0.2,0.2,0.2) and 30,
    each different from the "wood" entry's value. *)
Theorem FindMaterial_mug_after_wood (p : pointer) (out : OBJECT_MATERIAL.t) :
  (forall (wd ws md ms : glm.vec3) (wsh msh : R),
      FindMaterial "mug" out
        (push_back_material (OBJECT_MATERIAL.mk md ms msh "mug")
           (push_back_material (OBJECT_MATERIAL.mk wd ws wsh "wood")
              (SceneManager_new p)))
      = Done (true, OBJECT_MATERIAL.mk md ms msh (OBJECT_MATERIAL.tag out)))
  /\ FindMaterial "mug" out (DefineObjectMaterials (SceneManager_new p))
     = Done (true, OBJECT_MATERIAL.mk (glm.mkVec3 0.4 0.4 0.4)
                                      (glm.mkVec3 0.2 0.2 0.2) 30.0
                                      (OBJECT_MATERIAL.tag out))
  /\ glm.mkVec3 0.4 0.4 0.4 <> OBJECT_MATERIAL.diffuseColor woodMaterial
  /\ glm.mkVec3 0.2 0.2 0.2 <> OBJECT_MATERIAL.specularColor woodMaterial
  /\ 30.0%R <> OBJECT_MATERIAL.shininess woodMaterial.
Proof.
  split; [intros; reflexivity|].
  split; [reflexivity|].
  unfold woodMaterial; simpl.
  repeat split.
  - intros [= H _ _]. lra.
  - intros [= H _ _]. lra.
  - lra.
Qed.

(** ** The texture registry *)
Section TextureLookup.

Variable s : SceneManager.
Variable tag : string.
Hypothesis Hok : textures_ok s.

Let ids := m_textureIDs s.
Let loaded := m_loadedTextures s.

Lemma slot_in_array (index : Z) :
  0 <= index < loaded -> exists e, array_get ids index = Done e.
Proof.
  intros H. apply array_get_in_range. destruct Hok as [Hlen Hn].
  subst ids loaded. rewrite Hlen. lia.
Qed.

Lemma FindTextureSlot_while_found (fuel : nat) (textureSlot index : Z) :
  FindTextureSlot_while fuel s tag textureSlot index true = Done textureSlot.
Proof. destruct fuel; simpl; now rewrite andb_false_r. Qed.

Lemma FindTextureID_while_found (fuel : nat) (textureID index : Z) :
  FindTextureID_while fuel s tag textureID index true = Done textureID.
Proof. destruct fuel; simpl; now rewrite andb_false_r. Qed.

(** No entry from [index] on carries the tag: both loops run to the end of
    the registry and return what they started with. *)
Lemma Find_while_no_match (fuel : nat) :
  forall (r index : Z),
    0 <= index ->
    loaded - index <= Z.of_nat fuel ->
    (forall i e, index <= i < loaded ->
                 nth_error ids (Z.to_nat i) = Some e -> TEXTURE_INFO.tag e <> tag) ->
    FindTextureSlot_while fuel s tag r index false = Done r
    /\ FindTextureID_while fuel s tag r index false = Done r.
Proof.
  induction fuel as [|fuel IH]; intros r index H0 Hfuel Hno; simpl;
    fold loaded; fold ids.
  - destruct (Z.ltb_spec index loaded); [lia|]. simpl. auto.
  - destruct (Z.ltb_spec index loaded); simpl; [|auto].
    destruct (slot_in_array index) as [e He]; [lia|].
    rewrite He. simpl.
    apply array_get_Done in He. destruct He as [_ He].
    assert (Hne : compare_is_0 (TEXTURE_INFO.tag e) tag = false).
    { apply compare_is_0_false. apply (Hno index); [lia | assumption]. }
    rewrite Hne. apply IH; [lia | lia |].
    intros i e' Hi. apply Hno. lia.
Qed.

(** Slot [k] is the first from [index] on that carries the tag: the loops
    return [k] and the ID stored there. *)
Lemma Find_while_first_match (fuel : nat) (k : Z) (ek : TEXTURE_INFO.t) :
  forall (r index : Z),
    0 <= index <= k ->
    k < loaded ->
    loaded - index <= Z.of_nat fuel ->
    nth_error ids (Z.to_nat k) = Some ek ->
    TEXTURE_INFO.tag ek = tag ->
    (forall i e, index <= i < k ->
                 nth_error ids (Z.to_nat i) = Some e -> TEXTURE_INFO.tag e <> tag) ->
    FindTextureSlot_while fuel s tag r index false = Done k
    /\ FindTextureID_while fuel s tag r index false = Done (TEXTURE_INFO.ID ek).
Proof.
  induction fuel as [|fuel IH]; intros r index H0 Hk Hfuel Hek Htag Hno; simpl;
    fold loaded; fold ids.
  - lia.
  - destruct (Z.ltb_spec index loaded); [|lia]. simpl.
    destruct (slot_in_array index) as [e He]; [lia|].
    rewrite He. simpl.
    apply array_get_Done in He. destruct He as [_ He].
    destruct (Z.eq_dec index k) as [->|Hneq].
    + assert (e = ek) by congruence. subst e.
      apply compare_is_0_iff in Htag. rewrite Htag.
      now rewrite FindTextureSlot_while_found, FindTextureID_while_found.
    + assert (Hne : compare_is_0 (TEXTURE_INFO.tag e) tag = false).
      { apply compare_is_0_false. apply (Hno index); [lia | assumption]. }
      rewrite Hne. apply IH; try assumption; try lia.
      intros i e' Hi. apply Hno. lia.
Qed.

(** Both loops stop within [m_loadedTextures] iterations and stay inside the
    array. *)
Lemma Find_while_stops (fuel : nat) :
  forall (r index : Z) (bFound : bool),
    0 <= index ->
    loaded - index <= Z.of_nat fuel ->
    (exists v, FindTextureSlot_while fuel s tag r index bFound = Done v)
    /\ (exists v, FindTextureID_while fuel s tag r index bFound = Done v).
Proof.
  induction fuel as [|fuel IH]; intros r index bFound H0 Hfuel; simpl;
    fold loaded; fold ids.
  - destruct (Z.ltb_spec index loaded); [lia|]. simpl. eauto.
  - destruct (Z.ltb_spec index loaded); simpl; [|eauto].
    destruct bFound; simpl; [eauto|].
    destruct (slot_in_array index) as [e ->]; [lia|]. simpl.
    destruct (compare_is_0 (TEXTURE_INFO.tag e) tag).
    + rewrite FindTextureSlot_while_found, FindTextureID_while_found. eauto.
    + apply IH; lia.
Qed.

Lemma FindTextureSlot_returns : exists v, FindTextureSlot tag s = Done v.
Proof.
  unfold FindTextureSlot. apply Find_while_stops; destruct Hok; subst loaded; lia.
Qed.

Lemma FindTextureSlot_not_registered :
  ~ registered tag s -> FindTextureSlot tag s = Done (-1).
Proof.
  intros Hno. unfold FindTextureSlot.
  apply Find_while_no_match; try (destruct Hok; subst loaded; lia).
  intros i e Hi He Ht. apply Hno. exists i, e. subst loaded ids. auto with zarith.
Qed.

End TextureLookup.

(** ** Loading textures *)

Lemma array_set_Done {A : Type} (a a' : list A) (i : Z) (x : A) :
  array_set a i x = Done a' <->
  0 <= i < Z.of_nat (List.length a) /\ a' = list_update a (Z.to_nat i) x.
Proof.
  unfold array_set. destruct (Z.ltb_spec i 0).
  - split; [discriminate | lia].
  - destruct (Nat.ltb_spec (Z.to_nat i) (List.length a)); split.
    + intros [= <-]. split; [lia | reflexivity].
    + intros [_ ->]. reflexivity.
    + discriminate.
    + lia.
Qed.

Lemma list_update_twice {A : Type} (a : list A) (n : nat) (x y : A) :
  list_update (list_update a n x) n y = list_update a n y.
Proof.
  revert n; induction a as [|z a IH]; intros [|n]; simpl; auto.
  now rewrite IH.
Qed.

Lemma textures_ok_new (p : pointer) : textures_ok (SceneManager_new p).
Proof. split; [reflexivity | simpl; lia]. Qed.

(** A load that returns [true] found a free slot, wrote the tag and the ID
    into it and counted it; nothing else changed. *)
Lemma CreateGLTexture_true (image : option STBImage) (textureID : Z)
    (tag : string) (s s' : SceneManager) :
  textures_ok s ->
  CreateGLTexture image textureID tag s = Done (true, s') ->
  m_loadedTextures s < 16
  /\ s' = mkSceneManager (m_pShaderManager s)
            (list_update (m_textureIDs s) (Z.to_nat (m_loadedTextures s))
                         (TEXTURE_INFO.mk tag textureID))
            (m_loadedTextures s + 1) (m_objectMaterials s).
Proof.
  intros [Hlen Hn] H. unfold CreateGLTexture in H.
  destruct image as [img|]; [|discriminate].
  assert (Hreg :
    (let* e := array_get (m_textureIDs s) (m_loadedTextures s) in
     let* ids := array_set (m_textureIDs s) (m_loadedTextures s)
                           (TEXTURE_INFO.set_ID e textureID) in
     let* e' := array_get ids (m_loadedTextures s) in
     let* ids' := array_set ids (m_loadedTextures s) (TEXTURE_INFO.set_tag e' tag) in
     Done (true, mkSceneManager (m_pShaderManager s) ids' (m_loadedTextures s + 1)
                                (m_objectMaterials s)))
    = Done (true, s')).
  { cbv zeta in H.
    destruct (colorChannels img =? 3); [exact H|].
    destruct (colorChannels img =? 4); [exact H | discriminate]. }
  clear H.
  destruct (array_get (m_textureIDs s) (m_loadedTextures s)) as [e| |] eqn:E1;
    simpl in Hreg; try discriminate.
  apply array_get_Done in E1. destruct E1 as [_ E1].
  assert (Hlt : (Z.to_nat (m_loadedTextures s) < 16)%nat).
  { rewrite <- Hlen. apply nth_error_Some. congruence. }
  destruct (array_set (m_textureIDs s) (m_loadedTextures s) _) as [ids| |] eqn:E2;
    simpl in Hreg; try discriminate.
  apply array_set_Done in E2. destruct E2 as [_ ->].
  destruct (array_get _ (m_loadedTextures s)) as [e'| |] eqn:E3;
    simpl in Hreg; try discriminate.
  apply array_get_Done in E3. destruct E3 as [_ E3].
  rewrite nth_error_list_update, Nat.eqb_refl in E3.
  destruct (Nat.ltb_spec (Z.to_nat (m_loadedTextures s))
                         (List.length (m_textureIDs s))); [|lia].
  injection E3 as <-.
  destruct (array_set _ (m_loadedTextures s) _) as [ids'| |] eqn:E4;
    simpl in Hreg; try discriminate.
  apply array_set_Done in E4. destruct E4 as [_ ->].
  rewrite list_update_twice in Hreg.
  injection Hreg as <-. split; [lia | reflexivity].
Qed.

(** A load that returns [false] leaves the scene manager as it was. *)
Lemma CreateGLTexture_false (image : option STBImage) (textureID : Z)
    (tag : string) (s s' : SceneManager) :
  CreateGLTexture image textureID tag s = Done (false, s') -> s' = s.
Proof.
  unfold CreateGLTexture. destruct image as [img|]; [|congruence].
  cbv zeta.
  set (reg := Run_bind _ _).
  assert (Hreg : reg <> Done (false, s')).
  { subst reg.
    destruct (array_get (m_textureIDs s) (m_loadedTextures s)); simpl; try discriminate.
    destruct (array_set (m_textureIDs s) (m_loadedTextures s) _); simpl; try discriminate.
    destruct (array_get _ (m_loadedTextures s)); simpl; try discriminate.
    destruct (array_set _ (m_loadedTextures s) _); simpl; discriminate. }
  destruct (colorChannels img =? 3); [contradiction|].
  destruct (colorChannels img =? 4); [contradiction|].
  congruence.
Qed.

Lemma holds_new (p : pointer) : holds (SceneManager_new p) [].
Proof.
  split; [apply textures_ok_new|]. split; [reflexivity|].
  intros [|i] l; discriminate.
Qed.

Lemma holds_step (s s' : SceneManager) (ls : list TextureLoad) (l : TextureLoad)
    (ok : bool) :
  holds s ls ->
  CreateGLTexture (load_image l) (load_textureID l) (load_tag l) s = Done (ok, s') ->
  holds s' (if ok then ls ++ [l] else ls).
Proof.
  intros (Hok & Hn & Hslots) H. destruct ok.
  - apply CreateGLTexture_true in H; [|assumption].
    destruct H as [Hlt ->]. destruct Hok as [Hlen Hrange].
    split; [|split]; simpl.
    + split; simpl; [now rewrite list_update_length | lia].
    + rewrite length_app; simpl. lia.
    + intros i l' Hi. rewrite nth_error_list_update.
      rewrite Hn, Nat2Z.id.
      destruct (Nat.eqb_spec i (List.length ls)) as [->|Hneq].
      * rewrite nth_error_app2, Nat.sub_diag in Hi by lia. simpl in Hi.
        injection Hi as <-.
        destruct (Nat.ltb_spec (List.length ls) (List.length (m_textureIDs s)));
          [reflexivity | lia].
      * apply Hslots. rewrite nth_error_app1 in Hi; [assumption|].
        assert (i < List.length (ls ++ [l]))%nat
          by (apply nth_error_Some; congruence).
        rewrite length_app in *; simpl in *. lia.
  - apply CreateGLTexture_false in H. subst s'. exact (conj Hok (conj Hn Hslots)).
Qed.

Lemma holds_run (loads : list TextureLoad) :
  forall (s s' : SceneManager) (ls loaded : list TextureLoad),
    holds s ls ->
    CreateGLTextures loads s = Done (loaded, s') ->
    holds s' (ls ++ loaded).
Proof.
  induction loads as [|l loads IH]; intros s s' ls loaded Hs H; simpl in H.
  - injection H as <- <-. now rewrite app_nil_r.
  - destruct (CreateGLTexture _ _ _ s) as [[ok s1]| |] eqn:E1; simpl in H;
      try discriminate.
    destruct (CreateGLTextures loads s1) as [[loaded1 s2]| |] eqn:E2; simpl in H;
      try discriminate.
    injection H as <- <-.
    pose proof (holds_step _ _ _ _ _ Hs E1) as Hs1.
    pose proof (IH _ _ _ _ Hs1 E2) as Hs2.
    destruct ok; [now rewrite <- app_assoc in Hs2 | assumption].
Qed.

(** A load of an accepted image into a registry with a free slot returns
    [true]. *)
Lemma CreateGLTexture_loadable (l : TextureLoad) (s : SceneManager) :
  textures_ok s ->
  m_loadedTextures s < 16 ->
  loadable l = true ->
  exists s',
    CreateGLTexture (load_image l) (load_textureID l) (load_tag l) s
    = Done (true, s').
Proof.
  intros [Hlen Hn] Hlt Hl. unfold loadable in Hl. unfold CreateGLTexture.
  destruct (load_image l) as [img|]; [|discriminate]. cbv zeta.
  assert (Hreg : exists s',
    (let* e := array_get (m_textureIDs s) (m_loadedTextures s) in
     let* ids := array_set (m_textureIDs s) (m_loadedTextures s)
                           (TEXTURE_INFO.set_ID e (load_textureID l)) in
     let* e' := array_get ids (m_loadedTextures s) in
     let* ids' := array_set ids (m_loadedTextures s)
                            (TEXTURE_INFO.set_tag e' (load_tag l)) in
     Done (true, mkSceneManager (m_pShaderManager s) ids' (m_loadedTextures s + 1)
                                (m_objectMaterials s)))
    = Done (true, s')).
  { destruct (array_get_in_range (m_textureIDs s) (m_loadedTextures s)) as [e ->];
      [lia|]. simpl.
    destruct (array_set (m_textureIDs s) (m_loadedTextures s)
                (TEXTURE_INFO.set_ID e (load_textureID l))) as [ids| |] eqn:E2.
    2,3: unfold array_set in E2;
         destruct (Z.ltb_spec (m_loadedTextures s) 0); [lia|];
         destruct (Nat.ltb_spec (Z.to_nat (m_loadedTextures s))
                                (List.length (m_textureIDs s))); [discriminate | lia].
    apply array_set_Done in E2. destruct E2 as [_ ->]. simpl.
    destruct (array_get_in_range
                (list_update (m_textureIDs s) (Z.to_nat (m_loadedTextures s))
                             (TEXTURE_INFO.set_ID e (load_textureID l)))
                (m_loadedTextures s)) as [e' ->];
      [rewrite list_update_length; lia|]. simpl.
    unfold array_set.
    destruct (Z.ltb_spec (m_loadedTextures s) 0); [lia|].
    rewrite list_update_length.
    destruct (Nat.ltb_spec (Z.to_nat (m_loadedTextures s))
                           (List.length (m_textureIDs s))); [|lia].
    simpl. eauto. }
  destruct (colorChannels img =? 3); [exact Hreg|].
  destruct (colorChannels img =? 4); [exact Hreg | discriminate].
Qed.

(** A load of anything else returns [false]. *)
Lemma CreateGLTexture_not_loadable (l : TextureLoad) (s : SceneManager) :
  loadable l = false ->
  CreateGLTexture (load_image l) (load_textureID l) (load_tag l) s
  = Done (false, s).
Proof.
  unfold loadable, CreateGLTexture. destruct (load_image l) as [img|]; [|reflexivity].
  cbv zeta. destruct (colorChannels img =? 3); [discriminate|].
  destruct (colorChannels img =? 4); [discriminate | reflexivity].
Qed.

(** A run of loads whose accepted images fit into the free slots returns,
    and the loads that return [true] are those with an accepted image. *)
Lemma CreateGLTextures_returns (loads : list TextureLoad) :
  forall s : SceneManager,
    textures_ok s ->
    m_loadedTextures s + Z.of_nat (List.length (filter loadable loads)) <= 16 ->
    exists s', CreateGLTextures loads s = Done (filter loadable loads, s').
Proof.
  induction loads as [|l loads IH]; intros s Hok Hfit; simpl.
  - eauto.
  - simpl in Hfit. destruct (loadable l) eqn:El.
    + simpl in Hfit.
      destruct (CreateGLTexture_loadable l s Hok) as [s1 H1]; [lia | assumption |].
      rewrite H1. simpl.
      destruct (CreateGLTexture_true _ _ _ _ _ Hok H1) as [Hlt Hs1].
      destruct (IH s1) as [s2 H2].
      * subst s1. destruct Hok as [Hlen Hn].
        split; simpl; [now rewrite list_update_length | lia].
      * subst s1. simpl. lia.
      * rewrite H2. simpl. eauto.
    + rewrite (CreateGLTexture_not_loadable l s El). simpl.
      destruct (IH s Hok Hfit) as [s2 H2]. rewrite H2. simpl. eauto.
Qed.

(** In a registry that holds the loads [ls], the first load with a given tag
    is the one both lookups find. *)
Lemma Find_first_load (s : SceneManager) (ls : list TextureLoad) (i : nat)
    (l : TextureLoad) :
  holds s ls ->
  nth_error ls i = Some l ->
  (forall j l', (j < i)%nat -> nth_error ls j = Some l' ->
                load_tag l' <> load_tag l) ->
  FindTextureSlot (load_tag l) s = Done (Z.of_nat i)
  /\ FindTextureID (load_tag l) s = Done (load_textureID l).
Proof.
  intros (Hok & Hn & Hslots) Hi Hfirst.
  assert (Hlt : (i < List.length ls)%nat) by (apply nth_error_Some; congruence).
  unfold FindTextureSlot, FindTextureID.
  change (load_textureID l)
    with (TEXTURE_INFO.ID (TEXTURE_INFO.mk (load_tag l) (load_textureID l))).
  apply Find_while_first_match; try assumption; try lia.
  - rewrite Nat2Z.id. now apply Hslots.
  - reflexivity.
  - intros j e Hj He.
    destruct (nth_error ls (Z.to_nat j)) as [l'|] eqn:El.
    + rewrite (Hslots _ _ El) in He. injection He as <-. simpl.
      apply (Hfirst (Z.to_nat j)); [lia | assumption].
    + apply nth_error_None in El. lia.
Qed.

(** With no texture loaded both lookups return -1. *)
Lemma Find_empty (tag : string) (s : SceneManager) :
  m_loadedTextures s = 0 ->
  FindTextureSlot tag s = Done (-1) /\ FindTextureID tag s = Done (-1).
Proof.
  intros H. unfold FindTextureSlot, FindTextureID. rewrite H. simpl.
  rewrite H. split; reflexivity.
Qed.

(** C5: when the decoded image has a channel count other than 3 or 4,
    [CreateGLTexture] returns false and the scene manager is unchanged: no
    entry is written to the texture registry and [m_loadedTextures] keeps
    its value. *)
Theorem CreateGLTexture_unsupported_channels (img : STBImage) (textureID : Z)
    (tag : string) (s : SceneManager) :
  colorChannels img <> 3 ->
  colorChannels img <> 4 ->
  CreateGLTexture (Some img) textureID tag s = Done (false, s).
Proof.
  intros H3 H4. unfold CreateGLTexture. cbv zeta.
  destruct (Z.eqb_spec (colorChannels img) 3); [contradiction|].
  destruct (Z.eqb_spec (colorChannels img) 4); [contradiction|].
  reflexivity.
Qed.

Lemma CreateGLTexture_unsupported_channels_witness :
  colorChannels (mkSTBImage 64 64 1) <> 3
  /\ colorChannels (mkSTBImage 64 64 1) <> 4
  /\ CreateGLTexture (Some (mkSTBImage 64 64 1)) 8 "tableTexture"
                     (SceneManager_new (Object 1))
     = Done (false, SceneManager_new (Object 1)).
Proof.
  split; [simpl; lia|]. split; [simpl; lia|].
  apply CreateGLTexture_unsupported_channels; simpl; lia.
Defined.

(** C6, as stated, fails when a tag is loaded twice: after two successful
    loads under the tag "mugTexture" with IDs 7 and 9, the lookups of the
    second load's tag return slot 0 and ID 7, not slot 1 and ID 9. *)
Lemma Find_duplicate_tag :
  CreateGLTextures duplicate_loads (SceneManager_new NULL)
  = Done (duplicate_loads, duplicate_scene)
  /\ nth_error duplicate_loads 1
     = Some (mkTextureLoad (Some (mkSTBImage 64 64 3)) 9 "mugTexture")
  /\ FindTextureSlot "mugTexture" duplicate_scene = Done 0
  /\ FindTextureSlot "mugTexture" duplicate_scene <> Done 1
  /\ FindTextureID "mugTexture" duplicate_scene = Done 7
  /\ FindTextureID "mugTexture" duplicate_scene <> Done 9.
Proof.
  split; [vm_compute; reflexivity|].
  split; [reflexivity|].
  vm_compute. repeat split; discriminate.
Qed.

(** C6, amended: every run of texture loads on a new scene manager whose
    accepted images fit into the sixteen slots returns, and afterwards, for
    the i-th successful load (counting from 0) whose tag no earlier
    successful load carries, [FindTextureSlot] of its tag returns i and
    [FindTextureID] returns its ID; and whenever no texture is loaded both
    return -1 for every tag. *)
Theorem Find_after_loads (p : pointer) (loads : list TextureLoad) :
  (List.length (filter loadable loads) <= 16)%nat ->
  exists s,
    CreateGLTextures loads (SceneManager_new p) = Done (filter loadable loads, s)
    /\ (forall i l,
          nth_error (filter loadable loads) i = Some l ->
          (forall j l', (j < i)%nat ->
                        nth_error (filter loadable loads) j = Some l' ->
                        load_tag l' <> load_tag l) ->
          FindTextureSlot (load_tag l) s = Done (Z.of_nat i)
          /\ FindTextureID (load_tag l) s = Done (load_textureID l))
    /\ (forall tag s0,
          m_loadedTextures s0 = 0 ->
          FindTextureSlot tag s0 = Done (-1) /\ FindTextureID tag s0 = Done (-1)).
Proof.
  intros Hfit.
  destruct (CreateGLTextures_returns loads (SceneManager_new p) (textures_ok_new p))
    as [s Hrun]; [simpl; lia|].
  exists s. split; [exact Hrun|]. split.
  - intros i l Hi Hfirst.
    apply (Find_first_load s (filter loadable loads) i l); try assumption.
    apply (holds_run loads (SceneManager_new p) s [] _ (holds_new p) Hrun).
  - intros tag s0. apply Find_empty.
Qed.

Lemma Find_after_loads_witness :
  (List.length (filter loadable sample_loads) <= 16)%nat
  /\ exists s,
       CreateGLTextures sample_loads (SceneManager_new (Object 1))
       = Done (filter loadable sample_loads, s)
       /\ (forall i l,
             nth_error (filter loadable sample_loads) i = Some l ->
             (forall j l', (j < i)%nat ->
                           nth_error (filter loadable sample_loads) j = Some l' ->
                           load_tag l' <> load_tag l) ->
             FindTextureSlot (load_tag l) s = Done (Z.of_nat i)
             /\ FindTextureID (load_tag l) s = Done (load_textureID l))
       /\ (forall tag s0,
             m_loadedTextures s0 = 0 ->
             FindTextureSlot tag s0 = Done (-1) /\ FindTextureID tag s0 = Done (-1)).
Proof.
  split; [simpl; lia|].
  apply (Find_after_loads (Object 1) sample_loads). simpl. lia.
Defined.

(** On the sample run the second successful load, "tableTexture", is found
    in slot 1 with its ID 9. *)
Lemma sample_loads_run :
  CreateGLTextures sample_loads (SceneManager_new (Object 1))
  = Done (sample_loaded, sample_scene)
  /\ FindTextureSlot "tableTexture" sample_scene = Done 1
  /\ FindTextureID "tableTexture" sample_scene = Done 9.
Proof. vm_compute. repeat split. Qed.

(** C10: for every tag that no registered texture carries,
    [SetShaderTexture] on a scene manager with a shader manager makes two
    calls: [setIntValue("bUseTexture", true)] and
    [setSampler2DValue("objectTexture", -1)]. *)
Theorem SetShaderTexture_unknown_tag (tag : string) (s : SceneManager) :
  m_pShaderManager s <> NULL ->
  textures_ok s ->
  ~ registered tag s ->
  SetShaderTexture tag s
  = Completed [setIntValue "bUseTexture" 1; setSampler2DValue "objectTexture" (-1)].
Proof.
  intros Hsm Hok Hno. unfold SetShaderTexture.
  rewrite (FindTextureSlot_not_registered s tag Hok Hno).
  destruct (m_pShaderManager s); [contradiction|]. reflexivity.
Qed.

Lemma textures_ok_sample : textures_ok sample_scene.
Proof. split; [reflexivity | simpl; lia]. Qed.

Lemma boxTexture_not_registered : ~ registered "boxTexture" sample_scene.
Proof.
  intros (i & e & Hi & He & Ht). simpl in Hi.
  assert (Hcases : i = 0 \/ i = 1) by lia.
  destruct Hcases as [-> | ->]; simpl in He; injection He as <-; discriminate.
Qed.

Lemma SetShaderTexture_unknown_tag_witness :
  m_pShaderManager sample_scene <> NULL
  /\ textures_ok sample_scene
  /\ ~ registered "boxTexture" sample_scene
  /\ SetShaderTexture "boxTexture" sample_scene
     = Completed [setIntValue "bUseTexture" 1;
                  setSampler2DValue "objectTexture" (-1)].
Proof.
  assert (Hsm : m_pShaderManager sample_scene <> NULL) by (simpl; discriminate).
  split; [exact Hsm|].
  split; [exact textures_ok_sample|].
  split; [exact boxTexture_not_registered|].
  exact (SetShaderTexture_unknown_tag "boxTexture" sample_scene Hsm
           textures_ok_sample boxTexture_not_registered).
Defined.

(** ** Setting shader state and rendering *)
Section Render.

Variable s : SceneManager.

(** Without a shader manager the four guarded setters make no call. *)
Lemma guarded_setters_skip (S T : glm.vec3) (x y z r g b a u v : R)
    (tag : string) :
  m_pShaderManager s = NULL ->
  SetTransformations S x y z T s = skip
  /\ SetShaderColor r g b a s = skip
  /\ SetShaderTexture tag s = skip
  /\ SetTextureUVScale u v s = skip.
Proof.
  intros H. unfold SetTransformations, SetShaderColor, SetShaderTexture,
    SetTextureUVScale. rewrite H. simpl. auto.
Qed.

(** [SetShaderMaterial] has no such guard: with a material defined, its
    first call goes through the null pointer. *)
Lemma SetShaderMaterial_NULL (indeterminate : OBJECT_MATERIAL.t) (tag : string) :
  m_pShaderManager s = NULL ->
  m_objectMaterials s <> [] ->
  SetShaderMaterial indeterminate tag s = ([], Crash NullPointerDereference).
Proof.
  intros Hnull Hmats. unfold SetShaderMaterial.
  destruct (FindMaterial_returns s tag indeterminate) as (b & m' & -> & Hb).
  destruct (m_objectMaterials s) as [|m ms] eqn:E; [contradiction|].
  simpl List.length. destruct (Z.ltb_spec 0 (Z.of_nat (S (List.length ms)))); [|lia].
  simpl. destruct b; [|destruct Hb as [Hb _]; discriminate (Hb eq_refl)].
  rewrite Hnull. reflexivity.
Qed.

(** Nor has [SetupSceneLights]. *)
Lemma SetupSceneLights_NULL :
  m_pShaderManager s = NULL ->
  SetupSceneLights s = ([], Crash NullPointerDereference).
Proof. intros H. unfold SetupSceneLights. rewrite H. reflexivity. Qed.

Hypothesis Hsm : m_pShaderManager s <> NULL.
Hypothesis Hok : textures_ok s.

Lemma runs_SetTransformations (S T : glm.vec3) (x y z : R) :
  runs (SetTransformations S x y z T s) [].
Proof.
  unfold SetTransformations. destruct (m_pShaderManager s); [contradiction|].
  split; reflexivity.
Qed.

Lemma runs_SetShaderColor (r g b a : R) : runs (SetShaderColor r g b a s) [].
Proof.
  unfold SetShaderColor. destruct (m_pShaderManager s); [contradiction|].
  split; reflexivity.
Qed.

Lemma runs_SetShaderTexture (tag : string) : runs (SetShaderTexture tag s) [].
Proof.
  unfold SetShaderTexture.
  destruct (FindTextureSlot_returns s tag Hok) as [v ->].
  destruct (m_pShaderManager s); [contradiction|].
  split; reflexivity.
Qed.

Lemma runs_SetTextureUVScale (u v : R) : runs (SetTextureUVScale u v s) [].
Proof.
  unfold SetTextureUVScale. destruct (m_pShaderManager s); [contradiction|].
  split; reflexivity.
Qed.

Lemma runs_SetShaderMaterial (indeterminate : OBJECT_MATERIAL.t) (tag : string) :
  runs (SetShaderMaterial indeterminate tag s) [].
Proof.
  unfold SetShaderMaterial.
  destruct (0 <? Z.of_nat (List.length (m_objectMaterials s))); [|apply runs_skip].
  destruct (FindMaterial_returns s tag indeterminate) as (b & m' & -> & _).
  simpl. destruct b; [|apply runs_skip].
  destruct (m_pShaderManager s); [contradiction|].
  split; reflexivity.
Qed.

Lemma runs_draw (e : Event) : is_draw e = true -> runs (call e) [e].
Proof.
  intros He. split; [reflexivity|]. unfold draw_calls; simpl. now rewrite He.
Qed.

Ltac render_step :=
  first [ apply runs_SetTransformations
        | apply runs_SetShaderColor
        | apply runs_SetShaderTexture
        | apply runs_SetTextureUVScale
        | apply runs_SetShaderMaterial
        | apply runs_draw; reflexivity
        | apply runs_for_loop; intros
        | eapply runs_andThen ].

(** One pass over the render script returns and draws the twenty meshes of
    [scene_draws], in that order. *)
Lemma RenderScene_runs (indeterminate : OBJECT_MATERIAL.t) :
  runs (RenderScene indeterminate s) scene_draws.
Proof.
  assert (H : exists ds, runs (RenderScene indeterminate s) ds /\ ds = scene_draws).
  { eexists. split.
    - unfold RenderScene. repeat render_step.
    - reflexivity. }
  destruct H as (ds & Hruns & ->). exact Hruns.
Qed.

End Render.

Lemma textures_ok_prepared : textures_ok prepared_scene.
Proof. split; [reflexivity | simpl; lia]. Qed.

Lemma prepared_scene_has_shader_manager : m_pShaderManager prepared_scene <> NULL.
Proof. simpl. discriminate. Qed.

(** C2: the claim is that with a null shader manager every uniform-setting
    call is skipped, in particular by [SetShaderMaterial] and
    [SetupSceneLights].  The code does not keep it: on a scene manager built
    with a null shader manager, [SetShaderMaterial("wood")] after
    [DefineObjectMaterials] and [SetupSceneLights] both make their first
    uniform call through the null pointer. *)
Theorem unguarded_calls_through_NULL (indeterminate : OBJECT_MATERIAL.t) :
  SetShaderMaterial indeterminate "wood"
                    (DefineObjectMaterials (SceneManager_new NULL))
  = ([], Crash NullPointerDereference)
  /\ SetupSceneLights (SceneManager_new NULL) = ([], Crash NullPointerDereference).
Proof.
  split.
  - apply SetShaderMaterial_NULL; [reflexivity | discriminate].
  - apply SetupSceneLights_NULL. reflexivity.
Qed.

(** C3, as stated, fails: one pass of [RenderScene] over the prepared sample
    scene returns and issues 20 draw calls, not 19. *)
Lemma RenderScene_draws_not_19 :
  returned (RenderScene woodMaterial prepared_scene)
  /\ List.length (draw_calls (RenderScene woodMaterial prepared_scene)) = 20%nat
  /\ List.length (draw_calls (RenderScene woodMaterial prepared_scene)) <> 19%nat.
Proof.
  destruct (RenderScene_runs prepared_scene prepared_scene_has_shader_manager
              textures_ok_prepared woodMaterial) as [Hret Hdraws].
  rewrite Hdraws. split; [exact Hret|]. split; [reflexivity | discriminate].
Qed.

(** C3, amended: on a scene manager with a shader manager and a texture
    array as the constructor and the loads keep it, each execution of
    [RenderScene] returns and issues exactly 20 mesh draw calls: one each
    for the plane, mug body, mug handle, coffee surface, tackle box, rod
    handle, rod shaft, reel body, reel side, fish body, fish eye and fish
    tail, then 5 rod eyelets and 3 steam particles. *)
Theorem RenderScene_draws (indeterminate : OBJECT_MATERIAL.t) (s : SceneManager) :
  m_pShaderManager s <> NULL ->
  textures_ok s ->
  returned (RenderScene indeterminate s)
  /\ draw_calls (RenderScene indeterminate s) = scene_draws
  /\ List.length (draw_calls (RenderScene indeterminate s)) = 20%nat.
Proof.
  intros Hsm Hok.
  destruct (RenderScene_runs s Hsm Hok indeterminate) as [Hret Hdraws].
  rewrite Hdraws. split; [exact Hret|]. split; reflexivity.
Qed.

Lemma RenderScene_draws_witness :
  m_pShaderManager prepared_scene <> NULL
  /\ textures_ok prepared_scene
  /\ returned (RenderScene woodMaterial prepared_scene)
  /\ draw_calls (RenderScene woodMaterial prepared_scene) = scene_draws
  /\ List.length (draw_calls (RenderScene woodMaterial prepared_scene)) = 20%nat.
Proof.
  split; [exact prepared_scene_has_shader_manager|].
  split; [exact textures_ok_prepared|].
  exact (RenderScene_draws woodMaterial prepared_scene
           prepared_scene_has_shader_manager textures_ok_prepared).
Defined.

(** * Further properties *)

(** ** What the texture lookups return *)
Section LookupResult.

Variable s : SceneManager.
Variable tag : string.
Hypothesis Hok : textures_ok s.

(** From slot [index] on, either no used slot carries the tag or there is
    a first one that does. *)
Lemma first_match_or_none (n : nat) :
  forall index : Z,
    0 <= index ->
    m_loadedTextures s - index <= Z.of_nat n ->
    (forall i e, index <= i < m_loadedTextures s ->
                 nth_error (m_textureIDs s) (Z.to_nat i) = Some e ->
                 TEXTURE_INFO.tag e <> tag)
    \/ (exists k e,
           index <= k < m_loadedTextures s
           /\ nth_error (m_textureIDs s) (Z.to_nat k) = Some e
           /\ TEXTURE_INFO.tag e = tag
           /\ forall i e', index <= i < k ->
                           nth_error (m_textureIDs s) (Z.to_nat i) = Some e' ->
                           TEXTURE_INFO.tag e' <> tag).
Proof.
  induction n as [|n IH]; intros index H0 Hn.
  - left. intros i e Hi. lia.
  - destruct (Z_lt_ge_dec index (m_loadedTextures s)) as [Hlt|Hge];
      [|left; intros i e Hi; lia].
    destruct (slot_in_array s Hok index) as [e He]; [lia|].
    apply array_get_Done in He. destruct He as [_ He].
    destruct (compare_is_0 (TEXTURE_INFO.tag e) tag) eqn:Ec.
    + apply compare_is_0_iff in Ec. right. exists index, e.
      split; [lia|]. split; [assumption|]. split; [assumption|].
      intros i e' Hi. lia.
    + apply compare_is_0_false in Ec.
      destruct (IH (index + 1)) as [Hnone | (k & ek & Hk & Hek & Htag & Hfirst)];
        try lia.
      * left. intros i e' Hi He'.
        destruct (Z.eq_dec i index) as [->|Hneq]; [congruence|].
        apply (Hnone i e'); [lia | assumption].
      * right. exists k, ek.
        split; [lia|]. split; [assumption|]. split; [assumption|].
        intros i e' Hi He'.
        destruct (Z.eq_dec i index) as [->|Hneq]; [congruence|].
        apply (Hfirst i e'); [lia | assumption].
Qed.

(** The two lookups, side by side: both miss, or both stop at the first
    slot that carries the tag. *)
Lemma Find_both :
  (~ registered tag s
   /\ FindTextureSlot tag s = Done (-1) /\ FindTextureID tag s = Done (-1))
  \/ (exists k e,
         0 <= k < m_loadedTextures s
         /\ nth_error (m_textureIDs s) (Z.to_nat k) = Some e
         /\ TEXTURE_INFO.tag e = tag
         /\ (forall i e', 0 <= i < k ->
                          nth_error (m_textureIDs s) (Z.to_nat i) = Some e' ->
                          TEXTURE_INFO.tag e' <> tag)
         /\ FindTextureSlot tag s = Done k
         /\ FindTextureID tag s = Done (TEXTURE_INFO.ID e)).
Proof.
  assert (Hn : 0 <= m_loadedTextures s) by (destruct Hok; lia).
  destruct (first_match_or_none (Z.to_nat (m_loadedTextures s)) 0)
    as [Hnone | (k & e & Hk & He & Htag & Hfirst)]; try lia.
  - left. split.
    + intros (i & e & Hi & He & Ht). apply (Hnone i e); assumption.
    + unfold FindTextureSlot, FindTextureID.
      apply Find_while_no_match; try assumption; lia.
  - right. exists k, e.
    split; [lia|]. split; [assumption|]. split; [assumption|].
    split; [assumption|].
    unfold FindTextureSlot, FindTextureID.
    apply (Find_while_first_match s tag Hok _ k e); try assumption; lia.
Qed.

End LookupResult.

(** X1: [FindTextureSlot] returns, with a value between -1 and
    [m_loadedTextures - 1]; the value is -1 exactly when no used slot
    carries the tag, and otherwise it is the first used slot that does. *)
Theorem FindTextureSlot_result (tag : string) (s : SceneManager) :
  textures_ok s ->
  exists r,
    FindTextureSlot tag s = Done r
    /\ -1 <= r < m_loadedTextures s
    /\ (r = -1 <-> ~ registered tag s)
    /\ (0 <= r ->
        exists e,
          nth_error (m_textureIDs s) (Z.to_nat r) = Some e
          /\ TEXTURE_INFO.tag e = tag
          /\ forall i e', 0 <= i < r ->
                          nth_error (m_textureIDs s) (Z.to_nat i) = Some e' ->
                          TEXTURE_INFO.tag e' <> tag).
Proof.
  intros Hok.
  destruct (Find_both s tag Hok)
    as [(Hno & Hslot & _) | (k & e & Hk & He & Htag & Hfirst & Hslot & _)].
  - exists (-1). split; [assumption|]. destruct Hok as [_ Hn].
    split; [lia|]. split; [tauto|]. lia.
  - exists k. split; [assumption|]. split; [lia|]. split.
    + split; [lia|]. intros Hno. exfalso. apply Hno. exists k, e. auto.
    + intros _. exists e. auto.
Qed.

Lemma FindTextureSlot_result_witness :
  textures_ok sample_scene
  /\ exists r,
       FindTextureSlot "tableTexture" sample_scene = Done r
       /\ -1 <= r < m_loadedTextures sample_scene
       /\ (r = -1 <-> ~ registered "tableTexture" sample_scene)
       /\ (0 <= r ->
           exists e,
             nth_error (m_textureIDs sample_scene) (Z.to_nat r) = Some e
             /\ TEXTURE_INFO.tag e = "tableTexture"
             /\ forall i e', 0 <= i < r ->
                  nth_error (m_textureIDs sample_scene) (Z.to_nat i) = Some e' ->
                  TEXTURE_INFO.tag e' <> "tableTexture").
Proof.
  split; [exact textures_ok_sample|].
  exact (FindTextureSlot_result "tableTexture" sample_scene textures_ok_sample).
Defined.

(** X2: the two lookups agree: when [FindTextureSlot] returns -1 so does
    [FindTextureID], and when it returns a slot, [FindTextureID] returns the
    ID stored in that slot. *)
Theorem FindTextureID_agrees_with_slot (tag : string) (s : SceneManager) :
  textures_ok s ->
  (FindTextureSlot tag s = Done (-1) /\ FindTextureID tag s = Done (-1))
  \/ (exists k e,
         0 <= k
         /\ FindTextureSlot tag s = Done k
         /\ nth_error (m_textureIDs s) (Z.to_nat k) = Some e
         /\ FindTextureID tag s = Done (TEXTURE_INFO.ID e)).
Proof.
  intros Hok.
  destruct (Find_both s tag Hok)
    as [(_ & Hslot & Hid) | (k & e & Hk & He & _ & _ & Hslot & Hid)].
  - left. auto.
  - right. exists k, e. split; [lia|]. auto.
Qed.

Lemma FindTextureID_agrees_with_slot_witness :
  textures_ok sample_scene
  /\ ((FindTextureSlot "tableTexture" sample_scene = Done (-1)
       /\ FindTextureID "tableTexture" sample_scene = Done (-1))
      \/ (exists k e,
             0 <= k
             /\ FindTextureSlot "tableTexture" sample_scene = Done k
             /\ nth_error (m_textureIDs sample_scene) (Z.to_nat k) = Some e
             /\ FindTextureID "tableTexture" sample_scene
                = Done (TEXTURE_INFO.ID e))).
Proof.
  split; [exact textures_ok_sample|].
  exact (FindTextureID_agrees_with_slot "tableTexture" sample_scene
           textures_ok_sample).
Defined.

(** ** What a texture load does to the registry *)
Section AfterLoad.

Variable s : SceneManager.
Variable textureID : Z.
Variable tag : string.
Hypothesis Hok : textures_ok s.

(** The scene manager after a load that returned [true]. *)
Let s' : SceneManager :=
  mkSceneManager (m_pShaderManager s)
    (list_update (m_textureIDs s) (Z.to_nat (m_loadedTextures s))
                 (TEXTURE_INFO.mk tag textureID))
    (m_loadedTextures s + 1) (m_objectMaterials s).

Hypothesis Hfree : m_loadedTextures s < 16.

Lemma loaded_ok : textures_ok s'.
Proof.
  destruct Hok as [Hlen Hn]. split; simpl.
  - now rewrite list_update_length.
  - lia.
Qed.

Lemma loaded_old_slot (i : Z) :
  0 <= i < m_loadedTextures s ->
  nth_error (m_textureIDs s') (Z.to_nat i) = nth_error (m_textureIDs s) (Z.to_nat i).
Proof.
  intros Hi. simpl. rewrite nth_error_list_update.
  destruct (Nat.eqb_spec (Z.to_nat i) (Z.to_nat (m_loadedTextures s))); [lia|].
  reflexivity.
Qed.

Lemma loaded_new_slot :
  nth_error (m_textureIDs s') (Z.to_nat (m_loadedTextures s))
  = Some (TEXTURE_INFO.mk tag textureID).
Proof.
  destruct Hok as [Hlen Hn]. simpl. rewrite nth_error_list_update, Nat.eqb_refl.
  destruct (Nat.ltb_spec (Z.to_nat (m_loadedTextures s))
                         (List.length (m_textureIDs s))); [reflexivity | lia].
Qed.

(** A tag that was not registered is found in the slot just written. *)
Lemma loaded_finds_new :
  ~ registered tag s ->
  FindTextureSlot tag s' = Done (m_loadedTextures s)
  /\ FindTextureID tag s' = Done textureID.
Proof.
  intros Hno. destruct Hok as [Hlen Hn].
  unfold FindTextureSlot, FindTextureID.
  change textureID with (TEXTURE_INFO.ID (TEXTURE_INFO.mk tag textureID)).
  apply (Find_while_first_match s' tag loaded_ok _ (m_loadedTextures s));
    simpl; try lia.
  - apply loaded_new_slot.
  - reflexivity.
  - intros i e Hi He Ht. apply Hno. exists i, e.
    split; [lia|]. split; [|assumption].
    rewrite <- (loaded_old_slot i) by lia. exact He.
Qed.

(** Every other lookup gives what it gave before. *)
Lemma loaded_keeps_old (t : string) :
  t <> tag \/ registered t s ->
  FindTextureSlot t s' = FindTextureSlot t s
  /\ FindTextureID t s' = FindTextureID t s.
Proof.
  intros Ht. destruct Hok as [Hlen Hn].
  destruct (Find_both s t Hok)
    as [(Hno & -> & ->) | (k & e & Hk & He & Htag & Hfirst & -> & ->)].
  - destruct Ht as [Hneq | Hreg]; [|contradiction].
    unfold FindTextureSlot, FindTextureID.
    apply (Find_while_no_match s' t loaded_ok); simpl; try lia.
    intros i e Hi He Hte.
    destruct (Z.eq_dec i (m_loadedTextures s)) as [->|Hne].
    + pose proof loaded_new_slot as Hnew. simpl in Hnew, He.
      rewrite Hnew in He. injection He as <-. simpl in Hte. congruence.
    + apply Hno. exists i, e. split; [lia|]. split; [|assumption].
      rewrite <- (loaded_old_slot i) by lia. exact He.
  - unfold FindTextureSlot, FindTextureID.
    apply (Find_while_first_match s' t loaded_ok _ k e); simpl; try lia.
    + rewrite <- He. apply loaded_old_slot. lia.
    + assumption.
    + intros i e' Hi He'. apply (Hfirst i e'); [lia|].
      rewrite <- (loaded_old_slot i) by lia. exact He'.
Qed.

End AfterLoad.

(** A load of an accepted image into a full registry writes past the
    array. *)
Lemma CreateGLTexture_full_registry (l : TextureLoad) (s : SceneManager) :
  textures_ok s ->
  m_loadedTextures s = 16 ->
  loadable l = true ->
  CreateGLTexture (load_image l) (load_textureID l) (load_tag l) s
  = Crash IndexOutOfBounds.
Proof.
  intros [Hlen Hn] Hfull Hl. unfold loadable in Hl. unfold CreateGLTexture.
  destruct (load_image l) as [img|]; [|discriminate]. cbv zeta.
  assert (Hget : array_get (m_textureIDs s) (m_loadedTextures s)
                 = Crash IndexOutOfBounds).
  { unfold array_get.
    destruct (Z.ltb_spec (m_loadedTextures s) 0); [reflexivity|].
    destruct (nth_error (m_textureIDs s) (Z.to_nat (m_loadedTextures s))) eqn:E;
      [|reflexivity].
    assert (Hsome : nth_error (m_textureIDs s) (Z.to_nat (m_loadedTextures s))
                    <> None) by congruence.
    apply nth_error_Some in Hsome. lia. }
  rewrite Hget. simpl.
  destruct (colorChannels img =? 3); [reflexivity|].
  destruct (colorChannels img =? 4); [reflexivity | discriminate].
Qed.

(** The three cases of a load. *)
Lemma CreateGLTexture_cases (l : TextureLoad) (s : SceneManager) :
  textures_ok s ->
  CreateGLTexture (load_image l) (load_textureID l) (load_tag l) s
  = if loadable l
    then if m_loadedTextures s <? 16
         then Done (true,
                    mkSceneManager (m_pShaderManager s)
                      (list_update (m_textureIDs s) (Z.to_nat (m_loadedTextures s))
                                   (TEXTURE_INFO.mk (load_tag l) (load_textureID l)))
                      (m_loadedTextures s + 1) (m_objectMaterials s))
         else Crash IndexOutOfBounds
    else Done (false, s).
Proof.
  intros Hok. destruct (loadable l) eqn:El.
  - destruct (Z.ltb_spec (m_loadedTextures s) 16) as [Hlt|Hge].
    + destruct (CreateGLTexture_loadable l s Hok Hlt El) as [s1 H1].
      rewrite H1. destruct (CreateGLTexture_true _ _ _ _ _ Hok H1) as [_ ->].
      reflexivity.
    + apply CreateGLTexture_full_registry; try assumption.
      destruct Hok. lia.
  - now apply CreateGLTexture_not_loadable.
Qed.

(** X3: on a well-formed texture array [CreateGLTexture] has three
    outcomes.  An image that did not decode or has a channel count other
    than 3 and 4 gives false and changes nothing.  An accepted image with a
    free slot gives true, writes {tag, ID} into slot [m_loadedTextures] and
    adds one to the count, leaving all else as it was.  An accepted image
    with all sixteen slots in use writes past the array: there is no
    capacity check. *)
Theorem CreateGLTexture_outcome (image : option STBImage) (textureID : Z)
    (tag : string) (s : SceneManager) :
  textures_ok s ->
  CreateGLTexture image textureID tag s
  = if loadable (mkTextureLoad image textureID tag)
    then if m_loadedTextures s <? 16
         then Done (true,
                    mkSceneManager (m_pShaderManager s)
                      (list_update (m_textureIDs s) (Z.to_nat (m_loadedTextures s))
                                   (TEXTURE_INFO.mk tag textureID))
                      (m_loadedTextures s + 1) (m_objectMaterials s))
         else Crash IndexOutOfBounds
    else Done (false, s).
Proof.
  intros Hok.
  exact (CreateGLTexture_cases (mkTextureLoad image textureID tag) s Hok).
Qed.

Lemma CreateGLTexture_outcome_witness :
  textures_ok sample_scene
  /\ CreateGLTexture (Some (mkSTBImage 64 64 4)) 11 "boxTexture" sample_scene
     = Done (true,
             mkSceneManager (Object 1)
               (TEXTURE_INFO.mk "mugTexture" 7 :: TEXTURE_INFO.mk "tableTexture" 9
                  :: TEXTURE_INFO.mk "boxTexture" 11
                  :: repeat (TEXTURE_INFO.mk "/0" (-1)) 13)
               3 []).
Proof.
  split; [exact textures_ok_sample|].
  exact (CreateGLTexture_outcome (Some (mkSTBImage 64 64 4)) 11 "boxTexture"
           sample_scene textures_ok_sample).
Defined.

(** The outcome of a run of loads, by the number of accepted images. *)
Lemma CreateGLTextures_cases (loads : list TextureLoad) :
  forall s : SceneManager,
    textures_ok s ->
    if m_loadedTextures s + Z.of_nat (List.length (filter loadable loads)) <=? 16
    then exists s',
           CreateGLTextures loads s = Done (filter loadable loads, s')
           /\ textures_ok s'
           /\ m_loadedTextures s'
              = m_loadedTextures s + Z.of_nat (List.length (filter loadable loads))
           /\ m_pShaderManager s' = m_pShaderManager s
           /\ m_objectMaterials s' = m_objectMaterials s
    else CreateGLTextures loads s = Crash IndexOutOfBounds.
Proof.
  induction loads as [|l loads IH]; intros s Hok.
  - simpl. destruct (Z.leb_spec (m_loadedTextures s + 0) 16) as [_|Hgt].
    + exists s. split; [reflexivity|]. split; [exact Hok|].
      split; [lia|]. split; reflexivity.
    + destruct Hok. lia.
  - simpl CreateGLTextures. rewrite (CreateGLTexture_cases l s Hok).
    simpl filter. destruct (loadable l) eqn:El.
    + simpl List.length. rewrite Nat2Z.inj_succ.
      destruct (Z.ltb_spec (m_loadedTextures s) 16) as [Hlt|Hge].
      * set (s1 := mkSceneManager _ _ _ _).
        assert (Hok1 : textures_ok s1)
          by (apply (loaded_ok s (load_textureID l) (load_tag l) Hok Hlt)).
        specialize (IH s1 Hok1).
        remember (Z.of_nat (List.length (filter loadable loads))) as len.
        replace (m_loadedTextures s + Z.succ len)
          with (m_loadedTextures s1 + len) by (subst s1; simpl; lia).
        cbn [Run_bind].
        destruct (m_loadedTextures s1 + len <=? 16).
        -- destruct IH as (s' & Hrun & Hok' & Hn' & Hp' & Hm').
           exists s'. rewrite Hrun. cbn [Run_bind].
           split; [reflexivity|]. split; [exact Hok'|].
           split; [exact Hn'|]. split; assumption.
        -- rewrite IH. reflexivity.
      * cbn [Run_bind].
        destruct (Z.leb_spec
                    (m_loadedTextures s
                     + Z.succ (Z.of_nat (List.length (filter loadable loads)))) 16);
          [lia | reflexivity].
    + cbn [Run_bind]. specialize (IH s Hok).
      destruct (m_loadedTextures s
                + Z.of_nat (List.length (filter loadable loads)) <=? 16).
      * destruct IH as (s' & Hrun & Hrest). exists s'. rewrite Hrun.
        cbn [Run_bind]. split; [reflexivity | exact Hrest].
      * rewrite IH. reflexivity.
Qed.

(** X4: a run of texture loads on a well-formed texture array returns
    exactly when its accepted images (decoded, 3 or 4 channels) fit into the
    free slots.  Then the loads that returned true are the accepted ones, in
    order, the count has grown by their number, and the shader manager and
    the materials are untouched.  Otherwise the run writes past the
    sixteenth slot. *)
Theorem CreateGLTextures_outcome (loads : list TextureLoad) (s : SceneManager) :
  textures_ok s ->
  if m_loadedTextures s + Z.of_nat (List.length (filter loadable loads)) <=? 16
  then exists s',
         CreateGLTextures loads s = Done (filter loadable loads, s')
         /\ textures_ok s'
         /\ m_loadedTextures s'
            = m_loadedTextures s + Z.of_nat (List.length (filter loadable loads))
         /\ m_pShaderManager s' = m_pShaderManager s
         /\ m_objectMaterials s' = m_objectMaterials s
  else CreateGLTextures loads s = Crash IndexOutOfBounds.
Proof. intros Hok. exact (CreateGLTextures_cases loads s Hok). Qed.

Lemma CreateGLTextures_outcome_witness :
  textures_ok (SceneManager_new (Object 1))
  /\ exists s',
       CreateGLTextures sample_loads (SceneManager_new (Object 1))
       = Done (filter loadable sample_loads, s')
       /\ textures_ok s'
       /\ m_loadedTextures s'
          = m_loadedTextures (SceneManager_new (Object 1))
            + Z.of_nat (List.length (filter loadable sample_loads))
       /\ m_pShaderManager s' = m_pShaderManager (SceneManager_new (Object 1))
       /\ m_objectMaterials s' = m_objectMaterials (SceneManager_new (Object 1)).
Proof.
  split; [exact (textures_ok_new (Object 1))|].
  exact (CreateGLTextures_outcome sample_loads (SceneManager_new (Object 1))
           (textures_ok_new (Object 1))).
Defined.

(** X5: a successful load under a tag that was not registered can be looked
    up at once: [FindTextureSlot] returns the slot the load took (the old
    count) and [FindTextureID] the ID it stored. *)
Theorem load_then_find (image : option STBImage) (textureID : Z) (tag : string)
    (s s' : SceneManager) :
  textures_ok s ->
  ~ registered tag s ->
  CreateGLTexture image textureID tag s = Done (true, s') ->
  FindTextureSlot tag s' = Done (m_loadedTextures s)
  /\ FindTextureID tag s' = Done textureID.
Proof.
  intros Hok Hno Hload.
  destruct (CreateGLTexture_true _ _ _ _ _ Hok Hload) as [Hlt ->].
  now apply loaded_finds_new.
Qed.

Lemma load_then_find_witness :
  textures_ok sample_scene
  /\ ~ registered "boxTexture" sample_scene
  /\ FindTextureSlot "boxTexture"
       (mkSceneManager (Object 1)
          (TEXTURE_INFO.mk "mugTexture" 7 :: TEXTURE_INFO.mk "tableTexture" 9
             :: TEXTURE_INFO.mk "boxTexture" 11
             :: repeat (TEXTURE_INFO.mk "/0" (-1)) 13)
          3 [])
     = Done (m_loadedTextures sample_scene)
  /\ FindTextureID "boxTexture"
       (mkSceneManager (Object 1)
          (TEXTURE_INFO.mk "mugTexture" 7 :: TEXTURE_INFO.mk "tableTexture" 9
             :: TEXTURE_INFO.mk "boxTexture" 11
             :: repeat (TEXTURE_INFO.mk "/0" (-1)) 13)
          3 [])
     = Done 11.
Proof.
  split; [exact textures_ok_sample|].
  split; [exact boxTexture_not_registered|].
  apply (load_then_find (Some (mkSTBImage 64 64 4)) 11 "boxTexture" sample_scene).
  - exact textures_ok_sample.
  - exact boxTexture_not_registered.
  - reflexivity.
Defined.

(** X6: a load never disturbs what is already registered: whether it
    succeeds or not, every tag other than the loaded one, and the loaded tag
    itself if it was registered before, is looked up to the same slot and
    the same ID as before the load. *)
Theorem load_keeps_lookups (image : option STBImage) (textureID : Z)
    (tag t : string) (ok : bool) (s s' : SceneManager) :
  textures_ok s ->
  CreateGLTexture image textureID tag s = Done (ok, s') ->
  t <> tag \/ registered t s ->
  FindTextureSlot t s' = FindTextureSlot t s
  /\ FindTextureID t s' = FindTextureID t s.
Proof.
  intros Hok Hload Ht. destruct ok.
  - destruct (CreateGLTexture_true _ _ _ _ _ Hok Hload) as [Hlt ->].
    now apply loaded_keeps_old.
  - apply CreateGLTexture_false in Hload. subst s'. split; reflexivity.
Qed.

Lemma mugTexture_registered : registered "mugTexture" sample_scene.
Proof.
  exists 0, (TEXTURE_INFO.mk "mugTexture" 7). simpl.
  split; [lia|]. split; reflexivity.
Qed.

Lemma load_keeps_lookups_witness :
  textures_ok sample_scene
  /\ ("mugTexture" <> "mugTexture" \/ registered "mugTexture" sample_scene)
  /\ FindTextureSlot "mugTexture"
       (mkSceneManager (Object 1)
          (TEXTURE_INFO.mk "mugTexture" 7 :: TEXTURE_INFO.mk "tableTexture" 9
             :: TEXTURE_INFO.mk "mugTexture" 11
             :: repeat (TEXTURE_INFO.mk "/0" (-1)) 13)
          3 [])
     = FindTextureSlot "mugTexture" sample_scene
  /\ FindTextureID "mugTexture"
       (mkSceneManager (Object 1)
          (TEXTURE_INFO.mk "mugTexture" 7 :: TEXTURE_INFO.mk "tableTexture" 9
             :: TEXTURE_INFO.mk "mugTexture" 11
             :: repeat (TEXTURE_INFO.mk "/0" (-1)) 13)
          3 [])
     = FindTextureID "mugTexture" sample_scene.
Proof.
  split; [exact textures_ok_sample|].
  split; [right; exact mugTexture_registered|].
  apply (load_keeps_lookups (Some (mkSTBImage 64 64 4)) 11 "mugTexture" "mugTexture"
           true sample_scene).
  - exact textures_ok_sample.
  - reflexivity.
  - right. exact mugTexture_registered.
Defined.

(** ** What the material lookup returns *)

Lemma skipn_at {A : Type} (l : list A) (n : nat) (x : A) :
  nth_error l n = Some x -> skipn n l = x :: skipn (S n) l.
Proof.
  revert n; induction l as [|y l IH]; intros [|n] H; simpl in *; try discriminate.
  - now injection H as ->.
  - now apply IH.
Qed.

Lemma find_append {A : Type} (p : A -> bool) (l l' : list A) :
  find p (l ++ l') = match find p l with
                     | Some x => Some x
                     | None => find p l'
                     end.
Proof.
  induction l as [|x l IH]; simpl; [reflexivity|].
  now destruct (p x).
Qed.

Section MaterialLookup.

Variable s : SceneManager.
Variable tag : string.

(** The entry test of the loop, and what the loop writes on a match. *)
Let carries (e : OBJECT_MATERIAL.t) : bool :=
  compare_is_0 (OBJECT_MATERIAL.tag e) tag.

Let written (e material : OBJECT_MATERIAL.t) : OBJECT_MATERIAL.t :=
  OBJECT_MATERIAL.mk (OBJECT_MATERIAL.diffuseColor e)
                     (OBJECT_MATERIAL.specularColor e)
                     (OBJECT_MATERIAL.shininess e)
                     (OBJECT_MATERIAL.tag material).

Lemma FindMaterial_while_find (fuel : nat) :
  forall (index : Z) (material : OBJECT_MATERIAL.t),
    0 <= index ->
    Z.of_nat (List.length (m_objectMaterials s)) - index <= Z.of_nat fuel ->
    exists index' bFound,
      FindMaterial_while fuel s tag index false material
      = Done (index', bFound,
              match find carries (skipn (Z.to_nat index) (m_objectMaterials s)) with
              | Some e => written e material
              | None => material
              end).
Proof.
  induction fuel as [|fuel IH]; intros index material H0 Hfuel.
  - simpl. destruct (Z.ltb_spec index (Z.of_nat (List.length (m_objectMaterials s))));
      [lia|]. simpl.
    rewrite skipn_all2 by lia. simpl. eauto.
  - simpl.
    destruct (Z.ltb_spec index (Z.of_nat (List.length (m_objectMaterials s))));
      simpl.
    + destruct (array_get_in_range (m_objectMaterials s) index) as [e He]; [lia|].
      rewrite He. simpl.
      apply array_get_Done in He. destruct He as [_ He].
      rewrite (skipn_at _ _ _ He). simpl. unfold carries at 1.
      destruct (compare_is_0 (OBJECT_MATERIAL.tag e) tag).
      * rewrite FindMaterial_while_found. eauto.
      * destruct (IH (index + 1) material) as (i' & b & Hloop); try lia.
        rewrite Hloop. replace (Z.to_nat (index + 1)) with (S (Z.to_nat index)) by lia.
        eauto.
    + rewrite skipn_all2 by lia. simpl. eauto.
Qed.

(** [FindMaterial] as a search for the first entry with the tag. *)
Lemma FindMaterial_find (material : OBJECT_MATERIAL.t) :
  FindMaterial tag material s
  = match m_objectMaterials s with
    | [] => Done (false, material)
    | _ :: _ =>
        Done (true,
              match find carries (m_objectMaterials s) with
              | Some e => written e material
              | None => material
              end)
    end.
Proof.
  unfold FindMaterial.
  destruct (m_objectMaterials s) as [|m ms] eqn:E; [reflexivity|].
  destruct (Z.eqb_spec (Z.of_nat (List.length (m :: ms))) 0) as [H|_];
    [simpl in H; lia|].
  rewrite <- E.
  destruct (FindMaterial_while_find (List.length (m_objectMaterials s)) 0 material)
    as (i & b & ->); try lia.
  reflexivity.
Qed.

End MaterialLookup.

Lemma find_first {A : Type} (p : A -> bool) (before after : list A) (e : A) :
  (forall b, In b before -> p b = false) ->
  p e = true ->
  find p (before ++ e :: after) = Some e.
Proof.
  intros Hb He. induction before as [|b before IH]; simpl.
  - now rewrite He.
  - rewrite (Hb b) by (left; reflexivity). apply IH.
    intros b' Hin. apply Hb. now right.
Qed.

Lemma find_all_false {A : Type} (p : A -> bool) (l : list A) :
  (forall x, In x l -> p x = false) -> find p l = None.
Proof.
  induction l as [|x l IH]; intros H; simpl; [reflexivity|].
  rewrite (H x) by (left; reflexivity). apply IH. intros y Hy. apply H. now right.
Qed.

(** X7: first match wins in [FindMaterial]: when an entry carries the tag
    and no entry before it does, the lookup returns true and writes that
    entry's diffuse colour, specular colour and shininess into the output;
    the output's own tag field is never written. *)
Theorem FindMaterial_first_match (tag : string) (out e : OBJECT_MATERIAL.t)
    (before after : list OBJECT_MATERIAL.t) (s : SceneManager) :
  m_objectMaterials s = before ++ e :: after ->
  (forall b, In b before -> OBJECT_MATERIAL.tag b <> tag) ->
  OBJECT_MATERIAL.tag e = tag ->
  FindMaterial tag out s
  = Done (true,
          OBJECT_MATERIAL.mk (OBJECT_MATERIAL.diffuseColor e)
                             (OBJECT_MATERIAL.specularColor e)
                             (OBJECT_MATERIAL.shininess e)
                             (OBJECT_MATERIAL.tag out)).
Proof.
  intros Hmats Hbefore He.
  rewrite FindMaterial_find, Hmats.
  rewrite find_first.
  - destruct before; reflexivity.
  - intros b Hb. apply compare_is_0_false. now apply Hbefore.
  - now apply compare_is_0_iff.
Qed.

Lemma FindMaterial_first_match_witness :
  m_objectMaterials prepared_scene
  = [woodMaterial; ceramicMaterial] ++ tackleMaterial :: [fishMaterial; corkMaterial]
  /\ (forall b, In b [woodMaterial; ceramicMaterial] ->
                OBJECT_MATERIAL.tag b <> "tackleBox")
  /\ OBJECT_MATERIAL.tag tackleMaterial = "tackleBox"
  /\ FindMaterial "tackleBox" woodMaterial prepared_scene
     = Done (true,
             OBJECT_MATERIAL.mk (OBJECT_MATERIAL.diffuseColor tackleMaterial)
                                (OBJECT_MATERIAL.specularColor tackleMaterial)
                                (OBJECT_MATERIAL.shininess tackleMaterial)
                                (OBJECT_MATERIAL.tag woodMaterial)).
Proof.
  assert (Hbefore : forall b, In b [woodMaterial; ceramicMaterial] ->
                              OBJECT_MATERIAL.tag b <> "tackleBox").
  { intros b [<- | [<- | []]]; discriminate. }
  split; [reflexivity|]. split; [exact Hbefore|]. split; [reflexivity|].
  exact (FindMaterial_first_match "tackleBox" woodMaterial tackleMaterial
           [woodMaterial; ceramicMaterial] [fishMaterial; corkMaterial]
           prepared_scene eq_refl Hbefore eq_refl).
Defined.

(** X8: a material defined under a new tag is found: after [push_back] of
    [m], when no earlier entry carries [m]'s tag, [FindMaterial] of that tag
    returns true with [m]'s three values. *)
Theorem define_then_find (m out : OBJECT_MATERIAL.t) (s : SceneManager) :
  (forall e, In e (m_objectMaterials s) ->
             OBJECT_MATERIAL.tag e <> OBJECT_MATERIAL.tag m) ->
  FindMaterial (OBJECT_MATERIAL.tag m) out (push_back_material m s)
  = Done (true,
          OBJECT_MATERIAL.mk (OBJECT_MATERIAL.diffuseColor m)
                             (OBJECT_MATERIAL.specularColor m)
                             (OBJECT_MATERIAL.shininess m)
                             (OBJECT_MATERIAL.tag out)).
Proof.
  intros Hnew. rewrite FindMaterial_find. simpl.
  rewrite find_first.
  - destruct (m_objectMaterials s); reflexivity.
  - intros b Hb. apply compare_is_0_false. now apply Hnew.
  - now apply compare_is_0_iff.
Qed.

Lemma define_then_find_witness :
  (forall e, In e (m_objectMaterials (SceneManager_new NULL)) ->
             OBJECT_MATERIAL.tag e <> OBJECT_MATERIAL.tag corkMaterial)
  /\ FindMaterial (OBJECT_MATERIAL.tag corkMaterial) woodMaterial
       (push_back_material corkMaterial (SceneManager_new NULL))
     = Done (true,
             OBJECT_MATERIAL.mk (OBJECT_MATERIAL.diffuseColor corkMaterial)
                                (OBJECT_MATERIAL.specularColor corkMaterial)
                                (OBJECT_MATERIAL.shininess corkMaterial)
                                (OBJECT_MATERIAL.tag woodMaterial)).
Proof.
  assert (Hnew : forall e, In e (m_objectMaterials (SceneManager_new NULL)) ->
                   OBJECT_MATERIAL.tag e <> OBJECT_MATERIAL.tag corkMaterial).
  { intros e []. }
  split; [exact Hnew|].
  exact (define_then_find corkMaterial woodMaterial (SceneManager_new NULL) Hnew).
Defined.

(** X9: a later definition never replaces an earlier one: when some entry
    already carries the tag [t], [FindMaterial] of [t] gives the same result
    after any [push_back] as before it, also when the new material itself
    is tagged [t]. *)
Theorem define_is_shadowed (t : string) (m out : OBJECT_MATERIAL.t)
    (s : SceneManager) :
  (exists e, In e (m_objectMaterials s) /\ OBJECT_MATERIAL.tag e = t) ->
  FindMaterial t out (push_back_material m s) = FindMaterial t out s.
Proof.
  intros (e & Hin & He). rewrite !FindMaterial_find. simpl.
  rewrite find_append.
  destruct (find (fun e0 => compare_is_0 (OBJECT_MATERIAL.tag e0) t)
                 (m_objectMaterials s)) as [e1|] eqn:Ef.
  - destruct (m_objectMaterials s); [contradiction | reflexivity].
  - exfalso.
    assert (Hc : compare_is_0 (OBJECT_MATERIAL.tag e) t = true)
      by now apply compare_is_0_iff.
    pose proof (List.find_none _ _ Ef e Hin) as Hf. simpl in Hf. congruence.
Qed.

Lemma define_is_shadowed_witness :
  (exists e, In e (m_objectMaterials prepared_scene)
             /\ OBJECT_MATERIAL.tag e = "mug")
  /\ FindMaterial "mug" woodMaterial
       (push_back_material
          (OBJECT_MATERIAL.mk (glm.mkVec3 1 0 0) (glm.mkVec3 0 1 0) 2 "mug")
          prepared_scene)
     = FindMaterial "mug" woodMaterial prepared_scene.
Proof.
  assert (Hmug : exists e, In e (m_objectMaterials prepared_scene)
                           /\ OBJECT_MATERIAL.tag e = "mug").
  { exists ceramicMaterial. split; [simpl; auto | reflexivity]. }
  split; [exact Hmug|].
  exact (define_is_shadowed "mug"
           (OBJECT_MATERIAL.mk (glm.mkVec3 1 0 0) (glm.mkVec3 0 1 0) 2 "mug")
           woodMaterial prepared_scene Hmug).
Defined.

Lemma FindMaterial_find_nonempty (tag : string) (material : OBJECT_MATERIAL.t)
    (s : SceneManager) :
  m_objectMaterials s <> [] ->
  FindMaterial tag material s
  = Done (true,
          match find (fun e => compare_is_0 (OBJECT_MATERIAL.tag e) tag)
                     (m_objectMaterials s) with
          | Some e => OBJECT_MATERIAL.mk (OBJECT_MATERIAL.diffuseColor e)
                                         (OBJECT_MATERIAL.specularColor e)
                                         (OBJECT_MATERIAL.shininess e)
                                         (OBJECT_MATERIAL.tag material)
          | None => material
          end).
Proof.
  intros Hne. rewrite FindMaterial_find.
  destruct (m_objectMaterials s); [contradiction | reflexivity].
Qed.

Lemma find_repeated {A : Type} (p : A -> bool) (l : list A) (x : A) :
  In x l -> find p (l ++ [x]) = find p l.
Proof.
  intros Hin. rewrite find_append.
  destruct (find p l) eqn:Ef; [reflexivity|].
  simpl. now rewrite (List.find_none _ _ Ef x Hin).
Qed.

(** X10: [DefineObjectMaterials] checks for no duplicates, and a second
    call appends the five materials again; yet every lookup gives the same
    result after the second call as after the first. *)
Theorem DefineObjectMaterials_twice (t : string) (out : OBJECT_MATERIAL.t)
    (s : SceneManager) :
  List.length (m_objectMaterials (DefineObjectMaterials (DefineObjectMaterials s)))
  = (List.length (m_objectMaterials s) + 10)%nat
  /\ FindMaterial t out (DefineObjectMaterials (DefineObjectMaterials s))
     = FindMaterial t out (DefineObjectMaterials s).
Proof.
  split.
  - unfold DefineObjectMaterials, push_back_material. simpl.
    rewrite !length_app. simpl. lia.
  - rewrite !FindMaterial_find_nonempty.
    + f_equal. f_equal.
      unfold DefineObjectMaterials at 1. unfold push_back_material at 1 2 3 4 5.
      cbn [m_objectMaterials].
      rewrite !find_repeated; [reflexivity | | | | |];
        unfold DefineObjectMaterials, push_back_material; cbn [m_objectMaterials];
        rewrite !in_app_iff; simpl; tauto.
    + unfold DefineObjectMaterials, push_back_material. simpl.
      intros H. apply app_eq_nil in H. destruct H; discriminate.
    + unfold DefineObjectMaterials, push_back_material. simpl.
      intros H. apply app_eq_nil in H. destruct H; discriminate.
Qed.

(** ** What [SetShaderMaterial] sends *)

(** X11: with a shader manager, [SetShaderMaterial] of a tag that an entry
    carries makes exactly three calls, with the diffuse colour, specular
    colour and shininess of the first such entry; what the uninitialised
    local held does not reach the shader. *)
Theorem SetShaderMaterial_known_tag (indeterminate e : OBJECT_MATERIAL.t)
    (before after : list OBJECT_MATERIAL.t) (tag : string) (s : SceneManager) :
  m_pShaderManager s <> NULL ->
  m_objectMaterials s = before ++ e :: after ->
  (forall b, In b before -> OBJECT_MATERIAL.tag b <> tag) ->
  OBJECT_MATERIAL.tag e = tag ->
  SetShaderMaterial indeterminate tag s
  = Completed
      [setVec3Value "material.diffuseColor" (OBJECT_MATERIAL.diffuseColor e);
       setVec3Value "material.specularColor" (OBJECT_MATERIAL.specularColor e);
       setFloatValue "material.shininess" (OBJECT_MATERIAL.shininess e)].
Proof.
  intros Hsm Hmats Hbefore He. unfold SetShaderMaterial.
  rewrite FindMaterial_find_nonempty
    by (rewrite Hmats; intros H; apply app_eq_nil in H; destruct H; discriminate).
  rewrite Hmats at 2. rewrite find_first.
  - rewrite Hmats, length_app. simpl List.length.
    destruct (Z.ltb_spec 0 (Z.of_nat (List.length before + S (List.length after))));
      [|lia].
    simpl. destruct (m_pShaderManager s); [contradiction | reflexivity].
  - intros b Hb. apply compare_is_0_false. now apply Hbefore.
  - now apply compare_is_0_iff.
Qed.

Lemma SetShaderMaterial_known_tag_witness :
  m_pShaderManager prepared_scene <> NULL
  /\ m_objectMaterials prepared_scene
     = [woodMaterial] ++ ceramicMaterial :: [tackleMaterial; fishMaterial; corkMaterial]
  /\ (forall b, In b [woodMaterial] -> OBJECT_MATERIAL.tag b <> "mug")
  /\ OBJECT_MATERIAL.tag ceramicMaterial = "mug"
  /\ SetShaderMaterial woodMaterial "mug" prepared_scene
     = Completed
         [setVec3Value "material.diffuseColor"
                       (OBJECT_MATERIAL.diffuseColor ceramicMaterial);
          setVec3Value "material.specularColor"
                       (OBJECT_MATERIAL.specularColor ceramicMaterial);
          setFloatValue "material.shininess"
                        (OBJECT_MATERIAL.shininess ceramicMaterial)].
Proof.
  assert (Hbefore : forall b, In b [woodMaterial] -> OBJECT_MATERIAL.tag b <> "mug").
  { intros b [<- | []]. discriminate. }
  split; [exact prepared_scene_has_shader_manager|].
  split; [reflexivity|]. split; [exact Hbefore|]. split; [reflexivity|].
  exact (SetShaderMaterial_known_tag woodMaterial ceramicMaterial [woodMaterial]
           [tackleMaterial; fishMaterial; corkMaterial] "mug" prepared_scene
           prepared_scene_has_shader_manager eq_refl Hbefore eq_refl).
Defined.

(** X12: with a shader manager and at least one material defined,
    [SetShaderMaterial] of a tag that no entry carries still makes its three
    calls, and what it sends is the content of its uninitialised local
    [material]. *)
Theorem SetShaderMaterial_unknown_tag (indeterminate : OBJECT_MATERIAL.t)
    (tag : string) (s : SceneManager) :
  m_pShaderManager s <> NULL ->
  m_objectMaterials s <> [] ->
  (forall e, In e (m_objectMaterials s) -> OBJECT_MATERIAL.tag e <> tag) ->
  SetShaderMaterial indeterminate tag s
  = Completed
      [setVec3Value "material.diffuseColor"
                    (OBJECT_MATERIAL.diffuseColor indeterminate);
       setVec3Value "material.specularColor"
                    (OBJECT_MATERIAL.specularColor indeterminate);
       setFloatValue "material.shininess"
                     (OBJECT_MATERIAL.shininess indeterminate)].
Proof.
  intros Hsm Hne Hno. unfold SetShaderMaterial.
  rewrite FindMaterial_find_nonempty by assumption.
  rewrite find_all_false
    by (intros e He; apply compare_is_0_false; now apply Hno).
  destruct (m_objectMaterials s) as [|m ms]; [contradiction|].
  simpl List.length.
  destruct (Z.ltb_spec 0 (Z.of_nat (S (List.length ms)))); [|lia].
  simpl. destruct (m_pShaderManager s); [contradiction | reflexivity].
Qed.

Lemma glass_not_defined :
  forall e, In e (m_objectMaterials prepared_scene) ->
            OBJECT_MATERIAL.tag e <> "glass".
Proof.
  intros e [<- | [<- | [<- | [<- | [<- | []]]]]]; discriminate.
Qed.

Lemma SetShaderMaterial_unknown_tag_witness :
  m_pShaderManager prepared_scene <> NULL
  /\ m_objectMaterials prepared_scene <> []
  /\ (forall e, In e (m_objectMaterials prepared_scene) ->
                OBJECT_MATERIAL.tag e <> "glass")
  /\ SetShaderMaterial fishMaterial "glass" prepared_scene
     = Completed
         [setVec3Value "material.diffuseColor"
                       (OBJECT_MATERIAL.diffuseColor fishMaterial);
          setVec3Value "material.specularColor"
                       (OBJECT_MATERIAL.specularColor fishMaterial);
          setFloatValue "material.shininess"
                        (OBJECT_MATERIAL.shininess fishMaterial)].
Proof.
  assert (Hne : m_objectMaterials prepared_scene <> []) by discriminate.
  split; [exact prepared_scene_has_shader_manager|].
  split; [exact Hne|]. split; [exact glass_not_defined|].
  exact (SetShaderMaterial_unknown_tag fishMaterial "glass" prepared_scene
           prepared_scene_has_shader_manager Hne glass_not_defined).
Defined.

(** ** Binding the textures *)
Section Bind.

Variable s : SceneManager.
Hypothesis Hok : textures_ok s.

(** The two calls that bind slot [k] to texture unit [k]. *)
Let bind_slot (k : nat) : list HostCall :=
  [glActiveTexture (Z.of_nat k);
   glBindTexture GL_TEXTURE_2D
     (TEXTURE_INFO.ID (nth k (m_textureIDs s) (TEXTURE_INFO.mk "" 0)))].

Lemma BindGLTextures_for_calls (n : nat) :
  forall (fuel : nat) (i : Z),
    0 <= i ->
    Z.to_nat (m_loadedTextures s - i) = n ->
    (n <= fuel)%nat ->
    BindGLTextures_for fuel s i = (flat_map bind_slot (seq (Z.to_nat i) n), Done tt).
Proof.
  induction n as [|n IH]; intros fuel i H0 Hn Hfuel.
  - destruct fuel; simpl;
      (destruct (Z.ltb_spec i (m_loadedTextures s)); [lia | reflexivity]).
  - destruct fuel as [|fuel]; [lia|]. simpl BindGLTextures_for.
    destruct (Z.ltb_spec i (m_loadedTextures s)); [|lia].
    destruct (slot_in_array s Hok i) as [e He]; [lia|].
    rewrite He. apply array_get_Done in He. destruct He as [_ He].
    rewrite (IH fuel (i + 1)) by lia.
    replace (Z.to_nat (i + 1)) with (S (Z.to_nat i)) by lia.
    unfold bind, emit, lift. simpl.
    unfold bind_slot at 2. rewrite Z2Nat.id by lia.
    rewrite (nth_error_nth _ _ _ He). reflexivity.
Qed.

Lemma BindGLTextures_calls :
  BindGLTextures s
  = (flat_map bind_slot (seq 0 (Z.to_nat (m_loadedTextures s))), Done tt).
Proof.
  unfold BindGLTextures.
  apply (BindGLTextures_for_calls (Z.to_nat (m_loadedTextures s))); lia.
Qed.

End Bind.

(** X13: on a well-formed texture array [BindGLTextures] returns, and its
    calls are, for each used slot k in rising order,
    [glActiveTexture(GL_TEXTURE0 + k)] followed by
    [glBindTexture(GL_TEXTURE_2D, ID of slot k)]: texture unit k receives
    the k-th registered texture, and nothing else is bound. *)
Theorem BindGLTextures_binds_slot_to_unit (s : SceneManager) :
  textures_ok s ->
  BindGLTextures s
  = (flat_map
       (fun k =>
          [glActiveTexture (Z.of_nat k);
           glBindTexture GL_TEXTURE_2D
             (TEXTURE_INFO.ID (nth k (m_textureIDs s) (TEXTURE_INFO.mk "" 0)))])
       (seq 0 (Z.to_nat (m_loadedTextures s))),
     Done tt).
Proof. intros Hok. exact (BindGLTextures_calls s Hok). Qed.

Lemma BindGLTextures_binds_slot_to_unit_witness :
  textures_ok sample_scene
  /\ BindGLTextures sample_scene
     = ([glActiveTexture 0; glBindTexture GL_TEXTURE_2D 7;
         glActiveTexture 1; glBindTexture GL_TEXTURE_2D 9], Done tt).
Proof.
  split; [exact textures_ok_sample|].
  exact (BindGLTextures_binds_slot_to_unit sample_scene textures_ok_sample).
Defined.




(** ** Destroying the textures *)

Lemma bind_lift_Done {E A B : Type} (a : A) (k : A -> Traced E B) :
  bind (lift (Done a)) k = k a.
Proof. unfold bind, lift. simpl. now destruct (k a). Qed.

Lemma bind_emit {E B : Type} (calls : list E) (k : unit -> Traced E B) :
  bind (emit calls) k = (calls ++ fst (k tt), snd (k tt)).
Proof. reflexivity. Qed.

Section Destroy.

Variable fresh : Z -> Z.

(** Slot [j] after the loop has run from slot [i] on. *)
Let renamed (s : SceneManager) (i : Z) (j : nat) : option TEXTURE_INFO.t :=
  if (Z.to_nat i <=? j)%nat && (j <? Z.to_nat (m_loadedTextures s))%nat
  then option_map (fun e => TEXTURE_INFO.set_ID e (fresh (Z.of_nat j)))
                  (nth_error (m_textureIDs s) j)
  else nth_error (m_textureIDs s) j.

Lemma DestroyGLTextures_for_calls (n : nat) :
  forall (fuel : nat) (i : Z) (s : SceneManager),
    textures_ok s ->
    0 <= i ->
    Z.to_nat (m_loadedTextures s - i) = n ->
    (n <= fuel)%nat ->
    exists s',
      DestroyGLTextures_for fuel fresh s i
      = (map (fun k => glGenTextures 1 (fresh (Z.of_nat k))) (seq (Z.to_nat i) n),
         Done s')
      /\ m_pShaderManager s' = m_pShaderManager s
      /\ m_loadedTextures s' = m_loadedTextures s
      /\ m_objectMaterials s' = m_objectMaterials s
      /\ List.length (m_textureIDs s') = List.length (m_textureIDs s)
      /\ forall j, nth_error (m_textureIDs s') j = renamed s i j.
Proof.
  induction n as [|n IH]; intros fuel i s Hok H0 Hn Hfuel.
  - exists s. split.
    + destruct fuel; simpl;
        (destruct (Z.ltb_spec i (m_loadedTextures s)); [lia | reflexivity]).
    + repeat (split; [reflexivity|]). intros j. unfold renamed.
      destruct (Nat.leb_spec (Z.to_nat i) j); [|reflexivity].
      destruct (Nat.ltb_spec j (Z.to_nat (m_loadedTextures s))); [lia | reflexivity].
  - destruct fuel as [|fuel]; [lia|]. simpl DestroyGLTextures_for.
    destruct (Z.ltb_spec i (m_loadedTextures s)); [|lia].
    destruct (slot_in_array s Hok i) as [e He]; [lia|].
    rewrite He, bind_lift_Done, bind_emit.
    apply array_get_Done in He. destruct He as [_ He].
    destruct Hok as [Hlen Hrange].
    assert (Hset : array_set (m_textureIDs s) i (TEXTURE_INFO.set_ID e (fresh i))
                   = Done (list_update (m_textureIDs s) (Z.to_nat i)
                                       (TEXTURE_INFO.set_ID e (fresh i))))
      by (apply array_set_Done; split; [lia | reflexivity]).
    rewrite Hset, bind_lift_Done.
    set (s1 := mkSceneManager _ _ _ _).
    assert (Hok1 : textures_ok s1)
      by (split; subst s1; simpl; [now rewrite list_update_length | lia]).
    destruct (IH fuel (i + 1) s1 Hok1)
      as (s' & Hrun & Hp & Hl & Hm & Hlen' & Hslots); try (subst s1; simpl; lia).
    exists s'. split; [|split; [|split; [|split; [|split]]]].
    + rewrite Hrun. simpl.
      replace (Z.to_nat (i + 1)) with (S (Z.to_nat i)) by lia.
      rewrite Z2Nat.id by lia. reflexivity.
    + rewrite Hp. reflexivity.
    + rewrite Hl. reflexivity.
    + rewrite Hm. reflexivity.
    + rewrite Hlen'. subst s1. simpl. apply list_update_length.
    + intros j. rewrite Hslots. unfold renamed. subst s1. simpl.
      rewrite nth_error_list_update.
      replace (Z.to_nat (i + 1)) with (S (Z.to_nat i)) by lia.
      destruct (Nat.eqb_spec j (Z.to_nat i)) as [->|Hneq].
      * destruct (Nat.leb_spec (S (Z.to_nat i)) (Z.to_nat i)); [lia|]. simpl.
        destruct (Nat.ltb_spec (Z.to_nat i) (List.length (m_textureIDs s))); [|lia].
        rewrite Nat.leb_refl.
        destruct (Nat.ltb_spec (Z.to_nat i) (Z.to_nat (m_loadedTextures s))); [|lia].
        simpl. rewrite He, Z2Nat.id by lia. reflexivity.
      * replace (Z.to_nat (m_loadedTextures s + 0)) with (Z.to_nat (m_loadedTextures s))
          by lia.
        destruct (Nat.leb_spec (S (Z.to_nat i)) j), (Nat.leb_spec (Z.to_nat i) j);
          try lia; reflexivity.
Qed.

End Destroy.

(** X15: [DestroyGLTextures] frees nothing.  On a well-formed texture array
    its only calls are one [glGenTextures] per loaded texture; the count,
    the tags, the shader manager and the materials stay as they were, and
    each used slot now holds the name just generated in place of the loaded
    one.  So every registered tag is still found in its slot, and
    [FindTextureID] returns the new name. *)
Theorem DestroyGLTextures_overwrites (fresh : Z -> Z) (s : SceneManager) :
  textures_ok s ->
  exists s',
    DestroyGLTextures fresh s
    = (map (fun k => glGenTextures 1 (fresh (Z.of_nat k)))
           (seq 0 (Z.to_nat (m_loadedTextures s))),
       Done s')
    /\ m_pShaderManager s' = m_pShaderManager s
    /\ m_loadedTextures s' = m_loadedTextures s
    /\ m_objectMaterials s' = m_objectMaterials s
    /\ (forall j e,
           0 <= j < m_loadedTextures s ->
           nth_error (m_textureIDs s) (Z.to_nat j) = Some e ->
           nth_error (m_textureIDs s') (Z.to_nat j)
           = Some (TEXTURE_INFO.mk (TEXTURE_INFO.tag e) (fresh j)))
    /\ (forall t k,
           0 <= k ->
           FindTextureSlot t s = Done k ->
           FindTextureSlot t s' = Done k /\ FindTextureID t s' = Done (fresh k)).
Proof.
  intros Hok.
  destruct (DestroyGLTextures_for_calls fresh (Z.to_nat (m_loadedTextures s))
              (Z.to_nat (m_loadedTextures s)) 0 s Hok)
    as (s' & Hrun & Hp & Hl & Hm & Hlen & Hslots); try lia.
  assert (Hslot : forall j e,
             0 <= j < m_loadedTextures s ->
             nth_error (m_textureIDs s) (Z.to_nat j) = Some e ->
             nth_error (m_textureIDs s') (Z.to_nat j)
             = Some (TEXTURE_INFO.mk (TEXTURE_INFO.tag e) (fresh j))).
  { intros j e Hj He. rewrite Hslots. simpl.
    destruct (Nat.ltb_spec (Z.to_nat j) (Z.to_nat (m_loadedTextures s))); [|lia].
    simpl. rewrite He. simpl. unfold TEXTURE_INFO.set_ID.
    rewrite Z2Nat.id by lia. reflexivity. }
  assert (Hok' : textures_ok s').
  { destruct Hok as [Hlen0 Hn]. split; [congruence | lia]. }
  exists s'. split; [exact Hrun|].
  split; [exact Hp|]. split; [exact Hl|]. split; [exact Hm|].
  split; [exact Hslot|].
  intros t k Hk Hfind.
  destruct (Find_both s t Hok)
    as [(_ & Hmiss & _) | (k' & e & Hk' & He & Htag & Hfirst & Hslot' & _)].
  - rewrite Hmiss in Hfind. injection Hfind as <-. lia.
  - rewrite Hslot' in Hfind. injection Hfind as ->.
    unfold FindTextureSlot, FindTextureID.
    change (fresh k)
      with (TEXTURE_INFO.ID (TEXTURE_INFO.mk (TEXTURE_INFO.tag e) (fresh k))).
    apply (Find_while_first_match s' t Hok'); try lia.
    + now apply Hslot.
    + exact Htag.
    + intros i e' Hi He'.
      destruct (slot_in_array s Hok i) as [ei Hei]; [lia|].
      apply array_get_Done in Hei. destruct Hei as [_ Hei].
      rewrite (Hslot i ei) in He' by (try lia; assumption).
      injection He' as <-. simpl. apply (Hfirst i ei); [lia | assumption].
Qed.

Lemma DestroyGLTextures_overwrites_witness :
  textures_ok sample_scene
  /\ exists s',
       DestroyGLTextures (fun i => 100 + i) sample_scene
       = (map (fun k => glGenTextures 1 (100 + Z.of_nat k))
              (seq 0 (Z.to_nat (m_loadedTextures sample_scene))),
          Done s')
       /\ m_pShaderManager s' = m_pShaderManager sample_scene
       /\ m_loadedTextures s' = m_loadedTextures sample_scene
       /\ m_objectMaterials s' = m_objectMaterials sample_scene
       /\ (forall j e,
              0 <= j < m_loadedTextures sample_scene ->
              nth_error (m_textureIDs sample_scene) (Z.to_nat j) = Some e ->
              nth_error (m_textureIDs s') (Z.to_nat j)
              = Some (TEXTURE_INFO.mk (TEXTURE_INFO.tag e) (100 + j)))
       /\ (forall t k,
              0 <= k ->
              FindTextureSlot t sample_scene = Done k ->
              FindTextureSlot t s' = Done k /\ FindTextureID t s' = Done (100 + k)).
Proof.
  split; [exact textures_ok_sample|].
  exact (DestroyGLTextures_overwrites (fun i => 100 + i) sample_scene
           textures_ok_sample).
Defined.

(** ** Rendering without a shader manager *)

(** X16: without a shader manager and with no material defined,
    [RenderScene] returns, sets no uniform at all and still issues its
    twenty draw calls: the calls it makes are exactly the draws. *)
Theorem RenderScene_NULL_no_materials (indeterminate : OBJECT_MATERIAL.t)
    (s : SceneManager) :
  m_pShaderManager s = NULL ->
  m_objectMaterials s = [] ->
  RenderScene indeterminate s = Completed scene_draws.
Proof.
  intros Hsm Hmats. destruct s as [p ids n mats]. simpl in Hsm, Hmats. subst.
  reflexivity.
Qed.

Lemma RenderScene_NULL_no_materials_witness :
  m_pShaderManager (SceneManager_new NULL) = NULL
  /\ m_objectMaterials (SceneManager_new NULL) = []
  /\ RenderScene woodMaterial (SceneManager_new NULL) = Completed scene_draws.
Proof.
  split; [reflexivity|]. split; [reflexivity|].
  exact (RenderScene_NULL_no_materials woodMaterial (SceneManager_new NULL)
           eq_refl eq_refl).
Defined.

(** X17: without a shader manager but with a material defined,
    [RenderScene] stops at its first [SetShaderMaterial]: it calls through
    the null pointer before it has set a uniform or drawn a mesh. *)
Theorem RenderScene_NULL_with_materials (indeterminate : OBJECT_MATERIAL.t)
    (s : SceneManager) :
  m_pShaderManager s = NULL ->
  m_objectMaterials s <> [] ->
  RenderScene indeterminate s = ([], Crash NullPointerDereference).
Proof.
  intros Hsm Hmats. unfold RenderScene.
  destruct (guarded_setters_skip s (glm.mkVec3 25.0 1.0 15.0)
              (glm.mkVec3 0.0 (-0.5) 0.0) 0.0 0.0 0.0 0 0 0 0 4.0 3.0
              "tableTexture" Hsm) as (-> & _ & -> & ->).
  rewrite (SetShaderMaterial_NULL s indeterminate "wood" Hsm Hmats).
  reflexivity.
Qed.

Lemma RenderScene_NULL_with_materials_witness :
  m_pShaderManager (DefineObjectMaterials (SceneManager_new NULL)) = NULL
  /\ m_objectMaterials (DefineObjectMaterials (SceneManager_new NULL)) <> []
  /\ RenderScene woodMaterial (DefineObjectMaterials (SceneManager_new NULL))
     = ([], Crash NullPointerDereference).
Proof.
  assert (Hne : m_objectMaterials (DefineObjectMaterials (SceneManager_new NULL))
                <> []) by discriminate.
  split; [reflexivity|]. split; [exact Hne|].
  exact (RenderScene_NULL_with_materials woodMaterial
           (DefineObjectMaterials (SceneManager_new NULL)) eq_refl Hne).
Defined.

(** ** Loading with every call recorded *)

Lemma snd_bind {E A B : Type} (m : Traced E A) (k : A -> Traced E B) :
  snd (bind m k) = Run_bind (snd m) (fun a => snd (k a)).
Proof. unfold bind. destruct (snd m); reflexivity. Qed.

Lemma register_texture_eq (image : STBImage) (textureID : Z) (tag : string)
    (s : SceneManager) :
  colorChannels image = 3 \/ colorChannels image = 4 ->
  CreateGLTexture (Some image) textureID tag s = register_texture textureID tag s.
Proof.
  intros Hc. unfold CreateGLTexture, register_texture. cbv zeta.
  destruct (Z.eqb_spec (colorChannels image) 3); [reflexivity|].
  destruct (Z.eqb_spec (colorChannels image) 4); [reflexivity | lia].
Qed.

(** The recorded calls aside, the traced load is the load. *)
Lemma CreateGLTexture_traced_result (image : option STBImage) (textureID : Z)
    (filename tag : string) (s : SceneManager) :
  snd (CreateGLTexture_traced image textureID filename tag s)
  = CreateGLTexture image textureID tag s.
Proof.
  unfold CreateGLTexture_traced. rewrite snd_bind. cbn [emit snd Run_bind].
  destruct image as [img|]; [|reflexivity].
  destruct (Z.eqb_spec (colorChannels img) 3) as [H3|H3].
  - rewrite (register_texture_eq img) by (left; exact H3).
    rewrite !snd_bind. reflexivity.
  - destruct (Z.eqb_spec (colorChannels img) 4) as [H4|H4].
    + rewrite (register_texture_eq img) by (right; exact H4).
      rewrite !snd_bind. reflexivity.
    + rewrite !snd_bind. simpl.
      unfold CreateGLTexture. cbv zeta.
      destruct (Z.eqb_spec (colorChannels img) 3); [contradiction|].
      destruct (Z.eqb_spec (colorChannels img) 4); [contradiction|].
      reflexivity.
Qed.

(** X18: for a decoded image [CreateGLTexture] always generates a texture
    name, but it frees the image only when the channel count is 3 or 4.  On
    any other count it returns false leaving the scene manager unchanged,
    with the image never freed and the generated texture not registered. *)
Theorem CreateGLTexture_frees_only_accepted (img : STBImage) (textureID : Z)
    (filename tag : string) (s : SceneManager) :
  In (glGenTextures 1 textureID)
     (fst (CreateGLTexture_traced (Some img) textureID filename tag s))
  /\ (In (stbi_image_free img)
         (fst (CreateGLTexture_traced (Some img) textureID filename tag s))
      <-> colorChannels img = 3 \/ colorChannels img = 4)
  /\ (~ (colorChannels img = 3 \/ colorChannels img = 4) ->
      snd (CreateGLTexture_traced (Some img) textureID filename tag s)
      = Done (false, s)).
Proof.
  unfold CreateGLTexture_traced.
  destruct (Z.eqb_spec (colorChannels img) 3) as [H3|H3];
    [|destruct (Z.eqb_spec (colorChannels img) 4) as [H4|H4]];
    unfold bind, emit, lift, ret; cbn [fst snd app].
  - split; [simpl; tauto|]. split; [|intros H; exfalso; apply H; now left].
    split; [intros _; now left|]. intros _. simpl. tauto.
  - split; [simpl; tauto|]. split; [|intros H; exfalso; apply H; now right].
    split; [intros _; now right|]. intros _. simpl. tauto.
  - split; [simpl; tauto|]. split; [|reflexivity].
    split; [|lia]. intros Hin. exfalso. simpl in Hin.
    repeat (destruct Hin as [Hin | Hin]; [discriminate|]). exact Hin.
Qed.

(** X19: a failed load is always reported and a successful one never is:
    whenever [CreateGLTexture] returns, it returns false exactly when it has
    written "Could not load image:" or "Not implemented to handle image
    with ... channels" to the console. *)
Theorem CreateGLTexture_reports_failure (image : option STBImage)
    (textureID : Z) (filename tag : string) (s s' : SceneManager) (ok : bool) :
  snd (CreateGLTexture_traced image textureID filename tag s) = Done (ok, s') ->
  (ok = false <->
   In (cout [Text "Could not load image:"; Text filename; Endl])
      (fst (CreateGLTexture_traced image textureID filename tag s))
   \/ exists c,
        In (cout [Text "Not implemented to handle image with "; Number c;
                  Text " channels"; Endl])
           (fst (CreateGLTexture_traced image textureID filename tag s))).
Proof.
  unfold CreateGLTexture_traced.
  destruct image as [img|].
  - destruct (Z.eqb_spec (colorChannels img) 3) as [H3|H3];
      [|destruct (Z.eqb_spec (colorChannels img) 4) as [H4|H4]];
      unfold bind, emit, lift, ret; cbn [fst snd app].
    + intros Hres.
      assert (ok = true).
      { unfold register_texture in Hres.
        destruct (array_get (m_textureIDs s) (m_loadedTextures s)); simpl in Hres;
          try discriminate.
        destruct (array_set (m_textureIDs s) (m_loadedTextures s) _); simpl in Hres;
          try discriminate.
        destruct (array_get _ (m_loadedTextures s)); simpl in Hres;
          try discriminate.
        destruct (array_set _ (m_loadedTextures s) _); simpl in Hres;
          try discriminate.
        now injection Hres as <- _. }
      subst ok. split; [discriminate|].
      intros [Hin | (c & Hin)]; exfalso; simpl in Hin;
        repeat (destruct Hin as [Hin | Hin]; [discriminate|]); exact Hin.
    + intros Hres.
      assert (ok = true).
      { unfold register_texture in Hres.
        destruct (array_get (m_textureIDs s) (m_loadedTextures s)); simpl in Hres;
          try discriminate.
        destruct (array_set (m_textureIDs s) (m_loadedTextures s) _); simpl in Hres;
          try discriminate.
        destruct (array_get _ (m_loadedTextures s)); simpl in Hres;
          try discriminate.
        destruct (array_set _ (m_loadedTextures s) _); simpl in Hres;
          try discriminate.
        now injection Hres as <- _. }
      subst ok. split; [discriminate|].
      intros [Hin | (c & Hin)]; exfalso; simpl in Hin;
        repeat (destruct Hin as [Hin | Hin]; [discriminate|]); exact Hin.
    + intros [= <- <-]. split; [|reflexivity].
      intros _. right. exists (colorChannels img). simpl. tauto.
  - unfold bind, emit, lift, ret; cbn [fst snd app].
    intros [= <- <-]. split; [|reflexivity].
    intros _. left. simpl. tauto.
Qed.

Lemma CreateGLTexture_reports_failure_witness :
  snd (CreateGLTexture_traced None 5 "Textures/Missing.jpg" "missing"
                              (SceneManager_new NULL))
  = Done (false, SceneManager_new NULL)
  /\ (false = false <->
      In (cout [Text "Could not load image:"; Text "Textures/Missing.jpg"; Endl])
         (fst (CreateGLTexture_traced None 5 "Textures/Missing.jpg" "missing"
                                      (SceneManager_new NULL)))
      \/ exists c,
           In (cout [Text "Not implemented to handle image with "; Number c;
                     Text " channels"; Endl])
              (fst (CreateGLTexture_traced None 5 "Textures/Missing.jpg" "missing"
                                           (SceneManager_new NULL)))).
Proof.
  split; [reflexivity|].
  exact (CreateGLTexture_reports_failure None 5 "Textures/Missing.jpg" "missing"
           (SceneManager_new NULL) (SceneManager_new NULL) false eq_refl).
Defined.

(** ** Preparing the scene *)

Lemma snd_load_and_report (h : Host) (filename tag loaded failed : string)
    (s : SceneManager) :
  snd (load_and_report h filename tag loaded failed s)
  = Run_bind (CreateGLTexture (host_image h filename) (host_textureID h filename)
                              tag s)
             (fun r => Done (snd r)).
Proof.
  unfold load_and_report. rewrite snd_bind, CreateGLTexture_traced_result.
  destruct (CreateGLTexture _ _ tag s) as [[[|] s1]| |]; reflexivity.
Qed.

(** As far as the scene manager goes, [LoadSceneTextures] is the run of its
    eight loads followed by [BindGLTextures]. *)
Lemma LoadSceneTextures_result (h : Host) (s : SceneManager) :
  snd (LoadSceneTextures h s)
  = Run_bind (CreateGLTextures (scene_loads h) s)
             (fun r => Run_bind (snd (BindGLTextures (snd r)))
                                (fun _ => Done (snd r))).
Proof.
  unfold LoadSceneTextures, scene_loads, scene_textures.
  cbn [map fst snd CreateGLTextures load_image load_textureID load_tag].
  do 8 (rewrite snd_bind, snd_load_and_report;
        match goal with
        | |- context [CreateGLTexture ?a ?b ?c ?s0] =>
            destruct (CreateGLTexture a b c s0) as [[? ?]| |]
        end;
        cbn [Run_bind snd]; [| reflexivity | reflexivity]).
  rewrite snd_bind. cbn [Run_bind snd ret].
  match goal with
  | |- context [BindGLTextures ?s0] => destruct (snd (BindGLTextures s0))
  end; reflexivity.
Qed.

Lemma scene_loads_fit (h : Host) :
  (List.length (filter loadable (scene_loads h)) <= 8)%nat.
Proof.
  pose proof (filter_length_le loadable (scene_loads h)) as H.
  unfold scene_loads in H at 2. rewrite length_map in H. exact H.
Qed.

(** [LoadSceneTextures] on a new scene manager returns, whatever the files
    are, and the registry then holds the accepted ones in file order. *)
Lemma LoadSceneTextures_new (h : Host) (p : pointer) :
  exists calls s,
    LoadSceneTextures h (SceneManager_new p) = (calls, Done s)
    /\ holds s (filter loadable (scene_loads h))
    /\ m_pShaderManager s = p
    /\ m_objectMaterials s = [].
Proof.
  pose proof (LoadSceneTextures_result h (SceneManager_new p)) as Hres.
  pose proof (CreateGLTextures_cases (scene_loads h) (SceneManager_new p)
                (textures_ok_new p)) as Hrun.
  pose proof (scene_loads_fit h) as Hfit.
  revert Hrun.
  destruct (Z.leb_spec
              (m_loadedTextures (SceneManager_new p)
               + Z.of_nat (List.length (filter loadable (scene_loads h)))) 16)
    as [_|Hgt];
    [|unfold SceneManager_new in Hgt; cbn [m_loadedTextures] in Hgt; lia].
  intros (s & Hrun & Hok & Hn & Hp & Hm).
  rewrite Hrun in Hres. cbn [Run_bind snd] in Hres.
  rewrite (BindGLTextures_calls s Hok) in Hres. cbn [Run_bind snd] in Hres.
  destruct (LoadSceneTextures h (SceneManager_new p)) as [calls r].
  simpl in Hres. subst r.
  exists calls, s. split; [reflexivity|]. split; [|split; assumption].
  exact (holds_run (scene_loads h) (SceneManager_new p) s [] _ (holds_new p) Hrun).
Qed.

Lemma distinct_after_filter {X Y : Type} (image : X -> Y) (keep : X -> bool) :
  forall xs : list X,
    NoDup (map image xs) -> NoDup (map image (filter keep xs)).
Proof.
  intros xs. induction xs as [|x xs IHxs]; simpl; intros Hdistinct.
  - constructor.
  - inversion Hdistinct as [|y ys Hfresh Hrest]; subst.
    destruct (keep x); simpl; [|now apply IHxs].
    constructor; [|now apply IHxs].
    intros Hin. apply Hfresh. apply in_map_iff in Hin.
    destruct Hin as (a & Ha & Hina). apply filter_In in Hina.
    apply in_map_iff. exists a. tauto.
Qed.

Lemma NoDup_map_nth_error {A B : Type} (f : A -> B) (l : list A) (i j : nat)
    (a b : A) :
  NoDup (map f l) ->
  nth_error l i = Some a -> nth_error l j = Some b -> i <> j -> f a <> f b.
Proof.
  intros Hnd Hi Hj Hij Hf. apply Hij.
  apply (proj1 (NoDup_nth_error (map f l)) Hnd).
  - rewrite length_map. apply nth_error_Some. congruence.
  - rewrite (map_nth_error f _ _ Hi), (map_nth_error f _ _ Hj). now f_equal.
Qed.

Lemma NoDup_map_In {A B : Type} (f : A -> B) (l : list A) (a b : A) :
  NoDup (map f l) -> In a l -> In b l -> f a = f b -> a = b.
Proof.
  intros Hnd Ha Hb Hf.
  destruct (In_nth_error _ _ Ha) as [i Hi].
  destruct (In_nth_error _ _ Hb) as [j Hj].
  destruct (Nat.eq_dec i j) as [->|Hij]; [congruence|].
  exfalso. exact (NoDup_map_nth_error f l i j a b Hnd Hi Hj Hij Hf).
Qed.

Lemma scene_tags_distinct (h : Host) : NoDup (map load_tag (scene_loads h)).
Proof.
  unfold scene_loads. rewrite map_map. simpl.
  repeat (constructor; [simpl; intuition discriminate|]). constructor.
Qed.

(** X20: [LoadSceneTextures] on a new scene manager always returns: a file
    that fails to load stops nothing.  Afterwards the i-th file that was
    accepted (counting from 0, in the order of the calls) is found under its
    tag in slot i with the ID it was given, so a failed file moves every
    later texture one slot down; and the tag of a file that was not accepted
    is looked up to -1. *)
Theorem LoadSceneTextures_slots (h : Host) (p : pointer) :
  exists calls s,
    LoadSceneTextures h (SceneManager_new p) = (calls, Done s)
    /\ m_loadedTextures s
       = Z.of_nat (List.length (filter loadable (scene_loads h)))
    /\ (forall i l,
           nth_error (filter loadable (scene_loads h)) i = Some l ->
           FindTextureSlot (load_tag l) s = Done (Z.of_nat i)
           /\ FindTextureID (load_tag l) s = Done (load_textureID l))
    /\ (forall l,
           In l (scene_loads h) -> loadable l = false ->
           FindTextureSlot (load_tag l) s = Done (-1)).
Proof.
  destruct (LoadSceneTextures_new h p) as (calls & s & Hrun & Hholds & _ & _).
  exists calls, s. split; [exact Hrun|].
  pose proof (distinct_after_filter load_tag loadable _ (scene_tags_distinct h)) as Hnd.
  split; [apply Hholds|]. split.
  - intros i l Hi. apply (Find_first_load s _ i l Hholds Hi).
    intros j l' Hj Hl'.
    apply (NoDup_map_nth_error load_tag _ j i l' l Hnd Hl' Hi). lia.
  - intros l Hin Hbad. destruct Hholds as (Hok & Hn & Hslots).
    apply (FindTextureSlot_not_registered s (load_tag l) Hok).
    intros (i & e & Hi & He & Ht).
    destruct (nth_error (filter loadable (scene_loads h)) (Z.to_nat i))
      as [l'|] eqn:El'.
    + rewrite (Hslots _ _ El') in He. injection He as <-. simpl in Ht.
      apply nth_error_In in El'. apply filter_In in El'. destruct El' as [Hin' Hgood].
      assert (l' = l)
        by (apply (NoDup_map_In load_tag (scene_loads h) l' l
                     (scene_tags_distinct h) Hin' Hin Ht)).
      congruence.
    + apply nth_error_None in El'. lia.
Qed.

(** With the table texture unreadable, the trout texture takes slot 1. *)
Lemma missing_table_slots :
  exists calls s,
    LoadSceneTextures missing_table_host (SceneManager_new (Object 1))
    = (calls, Done s)
    /\ FindTextureSlot "tableTexture" s = Done (-1)
    /\ FindTextureSlot "troutTexture" s = Done 1
    /\ FindTextureSlot "reelTexture" s = Done 6.
Proof.
  eexists. eexists. split; [vm_compute; reflexivity|].
  vm_compute. repeat split.
Qed.

Lemma SetupSceneLights_returns (s : SceneManager) :
  m_pShaderManager s <> NULL -> snd (SetupSceneLights s) = Done tt.
Proof.
  intros Hsm. unfold SetupSceneLights.
  destruct (m_pShaderManager s); [contradiction | reflexivity].
Qed.

Lemma bind_Done {E A B : Type} (calls : list E) (a : A) (k : A -> Traced E B) :
  bind (calls, Done a) k = (calls ++ fst (k a), snd (k a)).
Proof. reflexivity. Qed.

Lemma bind_Crash {E A B : Type} (calls : list E) (f : Fault)
    (k : A -> Traced E B) :
  bind (calls, Crash f) k = (calls, Crash f).
Proof. reflexivity. Qed.

Lemma relabel_pair {E F A : Type} (f : E -> F) (calls : list E) (r : Run A) :
  relabel f (calls, r) = (map f calls, r).
Proof. reflexivity. Qed.

(** [PrepareScene] after its texture loads have returned [s1]. *)
Lemma PrepareScene_unfold (h : Host) (s s1 : SceneManager) (calls : list HostCall)
    (lights : list Event) (r : Run unit) :
  LoadSceneTextures h s = (calls, Done s1) ->
  SetupSceneLights (DefineObjectMaterials s1) = (lights, r) ->
  PrepareScene h s
  = match r with
    | Done _ =>
        (map OnHost calls ++ map OnShader lights
           ++ [OnMeshes LoadPlaneMesh; OnMeshes LoadCylinderMesh;
               OnMeshes LoadTorusMesh; OnMeshes LoadBoxMesh;
               OnMeshes LoadSphereMesh],
         Done (DefineObjectMaterials s1))
    | Crash f => (map OnHost calls ++ map OnShader lights, Crash f)
    | OutOfFuel => (map OnHost calls ++ map OnShader lights, OutOfFuel)
    end.
Proof.
  intros Hload Hlights. unfold PrepareScene.
  rewrite Hload, relabel_pair, bind_Done. cbv zeta.
  rewrite Hlights, relabel_pair.
  destruct r as [[]| |]; [|reflexivity|reflexivity].
  rewrite bind_Done. unfold emit, ret. rewrite bind_Done.
  cbn [fst snd]. rewrite app_nil_r. reflexivity.
Qed.

(** X21: with a shader manager, [PrepareScene] on a new scene manager
    returns whatever the image files are, having defined the five materials
    and loaded the five meshes, and it leaves the scene manager in a state
    from which [RenderScene] returns with its twenty draw calls. *)
Theorem PrepareScene_then_RenderScene (h : Host) (id : positive)
    (indeterminate : OBJECT_MATERIAL.t) :
  exists calls s,
    PrepareScene h (SceneManager_new (Object id)) = (calls, Done s)
    /\ m_objectMaterials s
       = [woodMaterial; ceramicMaterial; tackleMaterial; fishMaterial; corkMaterial]
    /\ (forall m, In (OnMeshes m) calls)
    /\ returned (RenderScene indeterminate s)
    /\ draw_calls (RenderScene indeterminate s) = scene_draws.
Proof.
  destruct (LoadSceneTextures_new h (Object id))
    as (calls & s1 & Hrun & Hholds & Hp & Hm).
  assert (Hsm : m_pShaderManager (DefineObjectMaterials s1) <> NULL)
    by (change (m_pShaderManager s1 <> NULL); rewrite Hp; discriminate).
  assert (Hok : textures_ok (DefineObjectMaterials s1)) by apply Hholds.
  pose proof (SetupSceneLights_returns _ Hsm) as Hlights.
  destruct (SetupSceneLights (DefineObjectMaterials s1)) as [lights r] eqn:El.
  cbn [snd] in Hlights. subst r.
  rewrite (PrepareScene_unfold h _ s1 calls lights (Done tt) Hrun El).
  eexists. eexists. split; [reflexivity|].
  split; [|split].
  - unfold DefineObjectMaterials, push_back_material. cbn [m_objectMaterials].
    rewrite Hm. reflexivity.
  - intros m. rewrite !in_app_iff. right. right. destruct m; simpl; tauto.
  - exact (RenderScene_runs _ Hsm Hok indeterminate).
Qed.


(** ** How the model matrix acts *)
Section TransformAction.

Local Open Scope R_scope.

Ltac entries :=
  cbv [glm.mat4_mul glm.mat4_mul_col glm.mat4_mul_vec4 glm.vec4_add
       glm.vec4_scale glm.vec3_scale glm.vec3_lscale glm.mat4_identity
       glm.scale glm.scale_mat glm.translate glm.translate_mat
       glm.col0 glm.col1 glm.col2 glm.col3
       glm.v4x glm.v4y glm.v4z glm.v4w glm.v3x glm.v3y glm.v3z
       TransformSpec.rows TransformSpec.row TransformSpec.column
       TransformSpec.dot4 TransformSpec.product
       TransformSpec.Scale TransformSpec.Translate TransformSpec.RotateX
       TransformSpec.RotateY TransformSpec.RotateZ].

(** Applying a product is applying its factors from right to left. *)
Lemma mat4_mul_vec4_mul (A B : glm.mat4) (v : glm.vec4) :
  glm.mat4_mul_vec4 (glm.mat4_mul A B) v
  = glm.mat4_mul_vec4 A (glm.mat4_mul_vec4 B v).
Proof.
  destruct A as [[] [] [] []], B as [[] [] [] []], v. entries.
  apply vec4_eq; ring.
Qed.

Lemma modelView_steps (S T : glm.vec3) (Xdeg Ydeg Zdeg : R) (v : glm.vec4) :
  glm.mat4_mul_vec4 (modelView S Xdeg Ydeg Zdeg T) v
  = glm.mat4_mul_vec4 (glm.translate T)
      (glm.mat4_mul_vec4 (glm.rotate (glm.radians Zdeg) (glm.mkVec3 0 0 1))
         (glm.mat4_mul_vec4 (glm.rotate (glm.radians Ydeg) (glm.mkVec3 0 1 0))
            (glm.mat4_mul_vec4 (glm.rotate (glm.radians Xdeg) (glm.mkVec3 1 0 0))
               (glm.mat4_mul_vec4 (glm.scale S) v)))).
Proof. unfold modelView. now rewrite !mat4_mul_vec4_mul. Qed.

Lemma apply_scale (S : glm.vec3) (x y z w : R) :
  glm.mat4_mul_vec4 (glm.scale S) (glm.mkVec4 x y z w)
  = glm.mkVec4 (glm.v3x S * x) (glm.v3y S * y) (glm.v3z S * z) w.
Proof. destruct S. entries. apply vec4_eq; ring. Qed.

Lemma apply_translate (T : glm.vec3) (x y z w : R) :
  glm.mat4_mul_vec4 (glm.translate T) (glm.mkVec4 x y z w)
  = glm.mkVec4 (x + glm.v3x T * w) (y + glm.v3y T * w) (z + glm.v3z T * w) w.
Proof. destruct T. entries. apply vec4_eq; ring. Qed.

Lemma apply_rotateX (d x y z w : R) :
  glm.mat4_mul_vec4 (glm.rotate (glm.radians d) (glm.mkVec3 1 0 0))
                    (glm.mkVec4 x y z w)
  = glm.mkVec4 x
               (cos (TransformSpec.deg d) * y - sin (TransformSpec.deg d) * z)
               (sin (TransformSpec.deg d) * y + cos (TransformSpec.deg d) * z)
               w.
Proof. rewrite rotate_RotateX. entries. apply vec4_eq; ring. Qed.

Lemma apply_rotateY (d x y z w : R) :
  glm.mat4_mul_vec4 (glm.rotate (glm.radians d) (glm.mkVec3 0 1 0))
                    (glm.mkVec4 x y z w)
  = glm.mkVec4 (cos (TransformSpec.deg d) * x + sin (TransformSpec.deg d) * z)
               y
               (cos (TransformSpec.deg d) * z - sin (TransformSpec.deg d) * x)
               w.
Proof. rewrite rotate_RotateY. entries. apply vec4_eq; ring. Qed.

Lemma apply_rotateZ (d x y z w : R) :
  glm.mat4_mul_vec4 (glm.rotate (glm.radians d) (glm.mkVec3 0 0 1))
                    (glm.mkVec4 x y z w)
  = glm.mkVec4 (cos (TransformSpec.deg d) * x - sin (TransformSpec.deg d) * y)
               (sin (TransformSpec.deg d) * x + cos (TransformSpec.deg d) * y)
               z
               w.
Proof. rewrite rotate_RotateZ. entries. apply vec4_eq; ring. Qed.

(** X23: the matrix of [SetTransformations] acts on a vector as its five
    factors applied one after the other: the scale first, then the rotation
    about X, about Y, about Z, and the translation last. *)
Theorem modelView_applies_in_order (S T : glm.vec3) (Xdeg Ydeg Zdeg : R)
    (v : glm.vec4) :
  glm.mat4_mul_vec4 (modelView S Xdeg Ydeg Zdeg T) v
  = glm.mat4_mul_vec4 (glm.translate T)
      (glm.mat4_mul_vec4 (glm.rotate (glm.radians Zdeg) (glm.mkVec3 0 0 1))
         (glm.mat4_mul_vec4 (glm.rotate (glm.radians Ydeg) (glm.mkVec3 0 1 0))
            (glm.mat4_mul_vec4 (glm.rotate (glm.radians Xdeg) (glm.mkVec3 1 0 0))
               (glm.mat4_mul_vec4 (glm.scale S) v)))).
Proof. apply modelView_steps. Qed.

(** X24: whatever the scale and the rotation angles, the model matrix
    sends the local origin to [positionXYZ]. *)
Theorem modelView_places_origin (S T : glm.vec3) (Xdeg Ydeg Zdeg : R) :
  glm.mat4_mul_vec4 (modelView S Xdeg Ydeg Zdeg T) (glm.mkVec4 0 0 0 1)
  = glm.mkVec4 (glm.v3x T) (glm.v3y T) (glm.v3z T) 1.
Proof.
  rewrite modelView_steps, apply_scale.
  replace (glm.v3x S * 0) with 0 by ring.
  replace (glm.v3y S * 0) with 0 by ring.
  replace (glm.v3z S * 0) with 0 by ring.
  rewrite apply_rotateX.
  replace (cos (TransformSpec.deg Xdeg) * 0 - sin (TransformSpec.deg Xdeg) * 0)
    with 0 by ring.
  replace (sin (TransformSpec.deg Xdeg) * 0 + cos (TransformSpec.deg Xdeg) * 0)
    with 0 by ring.
  rewrite apply_rotateY.
  replace (cos (TransformSpec.deg Ydeg) * 0 + sin (TransformSpec.deg Ydeg) * 0)
    with 0 by ring.
  replace (cos (TransformSpec.deg Ydeg) * 0 - sin (TransformSpec.deg Ydeg) * 0)
    with 0 by ring.
  rewrite apply_rotateZ.
  replace (cos (TransformSpec.deg Zdeg) * 0 - sin (TransformSpec.deg Zdeg) * 0)
    with 0 by ring.
  replace (sin (TransformSpec.deg Zdeg) * 0 + cos (TransformSpec.deg Zdeg) * 0)
    with 0 by ring.
  rewrite apply_translate. apply vec4_eq; ring.
Qed.

(** X25: with the three angles 0, as for most objects of the scene, the
    model matrix scales each coordinate of a point and then adds the
    position: (x, y, z) goes to (Sx x + Tx, Sy y + Ty, Sz z + Tz). *)
Theorem modelView_without_rotation (S T : glm.vec3) (x y z : R) :
  glm.mat4_mul_vec4 (modelView S 0 0 0 T) (glm.mkVec4 x y z 1)
  = glm.mkVec4 (glm.v3x S * x + glm.v3x T) (glm.v3y S * y + glm.v3y T)
               (glm.v3z S * z + glm.v3z T) 1.
Proof.
  rewrite modelView_steps, apply_scale, apply_rotateX, apply_rotateY,
    apply_rotateZ, apply_translate.
  rewrite deg_0, cos_0, sin_0. apply vec4_eq; ring.
Qed.






End TransformAction.
